(** * convert_to_parquet.py: CSV to Parquet conversion script

    A shallow embedding of [scripts/python/convert_to_parquet.py] and the
    properties its specification states about it.

    The script is a linear sequence of calls into the operating system
    ([pathlib], [os.stat], [os.mkdir], [open]) and into pandas / pyarrow.
    The embedding keeps the script's three functions ([get_file_size_mb],
    [convert_csv_to_parquet], [main]) line by line, as computations over an
    explicit world (file system and console), and models what they call:

    - [pathlib.Path] as its [parts] tuple, with the lexical [parent];
    - the file system as a finite map from paths to files and directories
      (no links, permissions or quotas; nothing else runs concurrently);
    - Python floats as IEEE-754 binary64 (Rocq's primitive floats);
    - exceptions as an outcome threaded through every call, with
      [try]/[except] and [sys.exit];
    - pandas and pyarrow as an interface ([Pandas]): the CSV tokenizer, the
      timestamp parser, [min]/[max] and the Parquet codec are left abstract,
      while [read_csv]'s check of [parse_dates], [df[key]], [len],
      [nunique] and [to_parquet]'s file write are written out. *)

From Stdlib Require Import ZArith Floats Ascii.
From stdpp Require Import gmap strings list pretty.

Open Scope Z_scope.

(** ** pathlib *)

Module pathlib.

(** A [Path] is its [parts] tuple: [Path('/a/b').parts == ('/', 'a', 'b')],
    [Path('a/b').parts == ('a', 'b')] and [Path('.').parts == ()]. *)
Abbreviation Path := (list string).

(** [PurePath.parent]: the path without its last part; the anchor (the root
    or the empty relative path) is its own parent. *)
Definition parent (p : Path) : Path :=
  if decide (p = ["/"]) then p else removelast p.

(** [path / name] for a one-segment relative [name]. *)
Definition joinpath (p : Path) (name : string) : Path := p ++ [name].

(** The root directory and the current directory: they always exist. *)
Definition is_anchor (p : Path) : bool := bool_decide (p = [] ∨ p = ["/"]).

End pathlib.
Export pathlib.

Notation "p // name" := (joinpath p name) (at level 40, left associativity).

(** ** Exceptions *)

(** The subclasses of [Exception] that the calls of the script raise. The
    [OSError]s carry the path, [KeyError] the missing key; [LibraryError] is
    any other [Exception] raised inside pandas or pyarrow (parse errors,
    type errors, encoder errors, ...), with its class name and text. *)
Inductive exception :=
| FileNotFoundError (p : Path)
| NotADirectoryError (p : Path)
| FileExistsError (p : Path)
| IsADirectoryError (p : Path)
| KeyError (key : string)
| ValueError (msg : string)
| ZeroDivisionError (msg : string)
| LibraryError (cls msg : string).

(** What propagates out of a call: an [Exception], or the [SystemExit] of
    [sys.exit(code)], which [except Exception] does not catch. *)
Inductive raised :=
| Exc (e : exception)
| SystemExit (code : Z).

Inductive outcome (A : Type) :=
| Return (a : A)
| Raise (r : raised).
Arguments Return {A} a.
Arguments Raise {A} r.

(** ** The file system *)

(** An entry is a regular file with its bytes, or a directory. *)
Inductive node :=
| File (data : string)
| Dir.

Abbreviation FileSystem := (gmap Path node).

Definition lookup_node (fs : FileSystem) (p : Path) : option node :=
  if is_anchor p then Some Dir else fs !! p.

Definition is_dir (fs : FileSystem) (p : Path) : bool :=
  match lookup_node fs p with
  | Some Dir => true
  | _ => false
  end.

Definition is_file (fs : FileSystem) (p : Path) : bool :=
  match lookup_node fs p with
  | Some (File _) => true
  | _ => false
  end.

(** Every entry lives in a directory: the shape of any real file system. *)
Definition fs_ok (fs : FileSystem) : Prop :=
  map_Forall (λ p _, is_dir fs (parent p) = true) fs.

(** The levels of a path, outermost first: [levels ['/'; 'a'; 'b']] is
    [[]; ['/']; ['/'; 'a']; ['/'; 'a'; 'b']]. *)
Definition levels (p : Path) : list Path :=
  (λ k, take k p) <$> seq 0 (S (length p)).

(** The platform: what [st_size] a directory reports is the file system's
    business (4096 on ext4, 64 on APFS, ...). *)
Class Platform := { dir_st_size : Z }.

Record stat_result := { st_size : Z; st_isdir : bool }.

(** The size of an entry in bytes. *)
Definition node_size `{Platform} (n : node) : Z :=
  match n with
  | File data => Z.of_nat (String.length data)
  | Dir => dir_st_size
  end.

(** [os.stat(p)] *)
Definition os_stat `{Platform} (fs : FileSystem) (p : Path) : exception + stat_result :=
  match lookup_node fs p with
  | Some n =>
      inr {| st_size := node_size n;
             st_isdir := match n with Dir => true | File _ => false end |}
  | None => inl (FileNotFoundError p)
  end.

(** [os.mkdir(p)]: the parent is resolved first, then the name is created. *)
Definition os_mkdir (fs : FileSystem) (p : Path) : exception + FileSystem :=
  match lookup_node fs (parent p) with
  | None => inl (FileNotFoundError p)
  | Some (File _) => inl (NotADirectoryError p)
  | Some Dir =>
      match lookup_node fs p with
      | Some _ => inl (FileExistsError p)
      | None => inr (<[p := Dir]> fs)
      end
  end.

(** [Path.mkdir(parents, exist_ok)], as pathlib writes it:
<<
    try:
        os.mkdir(self, mode)
    except FileNotFoundError:
        if not parents or self.parent == self:
            raise
        self.parent.mkdir(parents=True, exist_ok=True)
        self.mkdir(mode, parents=False, exist_ok=exist_ok)
    except OSError:
        if not exist_ok or not self.is_dir():
            raise
>>
    The recursion goes up one part per call; [fuel] bounds its depth. *)
Fixpoint mkdir_fuel (fuel : nat) (parents exist_ok : bool)
    (fs : FileSystem) (p : Path) : exception + FileSystem :=
  match os_mkdir fs p with
  | inr fs' => inr fs'
  | inl (FileNotFoundError q) =>
      if negb parents || bool_decide (parent p = p) then inl (FileNotFoundError q)
      else
        match fuel with
        | O => inl (FileNotFoundError q)
        | S fuel' =>
            match mkdir_fuel fuel' true true fs (parent p) with
            | inl e => inl e
            | inr fs1 => mkdir_fuel fuel' false exist_ok fs1 p
            end
        end
  | inl e =>
      if negb exist_ok || negb (is_dir fs p) then inl e else inr fs
  end.

Definition mkdir (parents exist_ok : bool) (fs : FileSystem) (p : Path)
    : exception + FileSystem :=
  mkdir_fuel (S (length p)) parents exist_ok fs p.

(** [open(p, 'rb').read()] *)
Definition open_read (fs : FileSystem) (p : Path) : exception + string :=
  match lookup_node fs p with
  | Some (File data) => inr data
  | Some Dir => inl (IsADirectoryError p)
  | None => inl (FileNotFoundError p)
  end.

(** [open(p, 'wb').write(data)]: creates or truncates the file. *)
Definition open_write (fs : FileSystem) (p : Path) (data : string)
    : exception + FileSystem :=
  match lookup_node fs p with
  | Some Dir => inl (IsADirectoryError p)
  | _ =>
      match lookup_node fs (parent p) with
      | None => inl (FileNotFoundError p)
      | Some (File _) => inl (NotADirectoryError p)
      | Some Dir => inr (<[p := File data]> fs)
      end
  end.

(** ** pandas *)

(** A column: its cells in row order; [None] is a missing value (NaN, NaT). *)
Abbreviation Series scalar := (list (option scalar)).

(** A table as [read_csv] builds it: a [RangeIndex] of [index] rows and the
    named columns in file order. *)
Record DataFrame (scalar : Type) := {
  index : nat;
  data : list (string * Series scalar)
}.
Arguments index {scalar} _.
Arguments data {scalar} _.

(** What the script uses of pandas and pyarrow without the script deciding
    it: the cell values and their equality, the CSV tokenizer with its type
    inference, the timestamp parser, the order on cells behind [min] and
    [max], and the Parquet writer and reader (engine, compression, index).

    [parquet_encode] is the outcome of writing a table: the bytes of the
    file, or what was raised. [parquet_written] says where a failing write
    stopped: [None] when it raised before the destination was opened (no
    usable engine, a table that does not convert), [Some partial] when it
    raised after, with the bytes that had reached the file. *)
Class Pandas := {
  scalar : Type;
  scalar_eq_dec :: EqDecision scalar;
  scalar_countable :: Countable scalar;
  csv_tokenize : string → string → exception + DataFrame scalar;
  to_datetime : Series scalar → Series scalar;
  series_min : Series scalar → exception + option scalar;
  series_max : Series scalar → exception + option scalar;
  parquet_encode : string → string → bool → DataFrame scalar → exception + string;
  parquet_written : string → string → bool → DataFrame scalar → option string;
  parquet_decode : string → exception + DataFrame scalar
}.

Section DataFrames.
Context `{Pandas}.

(** [df.columns] *)
Definition columns (df : DataFrame scalar) : list string := (data df).*1.

(** [len(df)] *)
Definition len (df : DataFrame scalar) : Z := Z.of_nat (index df).

(** What the script relies on from the Parquet codec: a table written
    without its index reads back with the same number of rows and the same
    column names, in order. *)
Definition codec_round_trip : Prop :=
  ∀ engine compression df bytes,
    parquet_encode engine compression false df = inr bytes →
    ∃ df', parquet_decode bytes = inr df' ∧ len df' = len df ∧ columns df' = columns df.

(** [df[key]] *)
Fixpoint get_column (cols : list (string * Series scalar)) (key : string)
    : option (Series scalar) :=
  match cols with
  | [] => None
  | (name, s) :: rest => if decide (name = key) then Some s else get_column rest key
  end.

Definition getitem (df : DataFrame scalar) (key : string) : exception + Series scalar :=
  match get_column (data df) key with
  | Some s => inr s
  | None => inl (KeyError key)
  end.

(** [Series.unique()]: the values in order of first appearance. *)
Definition unique (s : Series scalar) : Series scalar := remove_dups s.

(** [Series.nunique()] with its default [dropna=True]:
    [len(remove_na_arraylike(self.unique()))]. *)
Definition nunique (s : Series scalar) : Z := Z.of_nat (length (omap id (unique s))).

(** The distinct values of a column; a missing cell is not a value. *)
Definition values (s : Series scalar) : gset scalar := list_to_set (omap id s).

(** The columns that [parse_dates] names and the table does not have. *)
Definition missing_columns (names : list string) (df : DataFrame scalar) : list string :=
  filter (λ c, c ∉ columns df) names.

Definition parse_date_columns (names : list string) (df : DataFrame scalar)
    : DataFrame scalar :=
  {| index := index df;
     data := (λ '(name, s), if decide (name ∈ names) then (name, to_datetime s) else (name, s))
               <$> data df |}.

Definition quoted (s : string) : string := "'" +:+ s +:+ "'".

Fixpoint join (sep : string) (l : list string) : string :=
  match l with
  | [] => ""
  | [x] => x
  | x :: rest => x +:+ sep +:+ join sep rest
  end.

(** [pd.read_csv(path, encoding=..., parse_dates=[...])]: the file is read
    and tokenized, the [parse_dates] columns must all be there
    ([ValueError: Missing column provided to 'parse_dates': ...]), and
    those columns go through the timestamp parser. *)
Definition read_csv (fs : FileSystem) (path : Path) (encoding : string)
    (parse_dates : list string) : exception + DataFrame scalar :=
  match open_read fs path with
  | inl e => inl e
  | inr bytes =>
      match csv_tokenize bytes encoding with
      | inl e => inl e
      | inr raw =>
          match missing_columns parse_dates raw with
          | [] => inr (parse_date_columns parse_dates raw)
          | missing =>
              inl (ValueError ("Missing column provided to 'parse_dates': "
                               +:+ join ", " (quoted <$> missing)))
          end
      end
  end.

End DataFrames.

(** ** The console, the world and computations *)

Section Runtime.
Context `{Platform, Pandas}.

(** A printed line is the f-string that built it: its literal text and its
    replacement fields, each with its value and format spec. *)
Inductive frag :=
| Lit (s : string)
| FPath (p : Path)
| FStr (s : string)
| FInt (spec : string) (n : Z)
| FFloat (spec : string) (x : float)
| FCell (c : option scalar)
| FExc (e : exception).

Definition line := list frag.

Record world := {
  files : FileSystem;
  stdout : list line
}.

(** A Python call: it runs in a world, returns or raises, and leaves a world. *)
Definition Py (A : Type) : Type := world → outcome A * world.

Definition ret {A} (a : A) : Py A := λ w, (Return a, w).

Definition bind {A B} (m : Py A) (k : A → Py B) : Py B :=
  λ w, match m w with
       | (Return a, w') => k a w'
       | (Raise r, w') => (Raise r, w')
       end.

Definition raise {A} (e : exception) : Py A := λ w, (Raise (Exc e), w).

(** A call into the library or the kernel that sees no state. *)
Definition call {A} (r : exception + A) : Py A :=
  λ w, match r with
       | inr a => (Return a, w)
       | inl e => (Raise (Exc e), w)
       end.

(** [try: body / except Exception as e: handler e] *)
Definition try_except {A} (body : Py A) (handler : exception → Py A) : Py A :=
  λ w, match body w with
       | (Raise (Exc e), w') => handler e w'
       | r => r
       end.

(** [sys.exit(code)] *)
Definition sys_exit {A} (code : Z) : Py A := λ w, (Raise (SystemExit code), w).

(** [print(line)] *)
Definition print (l : line) : Py unit :=
  λ w, (Return tt, {| files := files w; stdout := stdout w ++ [l] |}).

(** A call that reads the file system. *)
Definition read_fs {A} (f : FileSystem → exception + A) : Py A :=
  λ w, call (f (files w)) w.

(** A call that changes the file system, or raises and leaves it as it was. *)
Definition update_fs (f : FileSystem → exception + FileSystem) : Py unit :=
  λ w, match f (files w) with
       | inr fs' => (Return tt, {| files := fs'; stdout := stdout w |})
       | inl e => (Raise (Exc e), w)
       end.

End Runtime.

Declare Scope py_scope.
Notation "x ← m ; k" := (bind m (λ x, k))
  (at level 20, m at level 100, k at level 200, only parsing) : py_scope.
Notation "m ;; k" := (bind m (λ _, k))
  (at level 100, k at level 200, right associativity, only parsing) : py_scope.
Delimit Scope py_scope with py.

Section Script.
Context `{Platform, Pandas}.
Open Scope py_scope.

(** [for x in xs: body x] *)
Fixpoint for_each {A} (xs : list A) (body : A → Py unit) : Py unit :=
  match xs with
  | [] => ret tt
  | x :: rest => body x;; for_each rest body
  end.

Definition NL : string := String (Ascii.ascii_of_nat 10) "".

(** [s * n] on strings *)
Fixpoint str_mul (s : string) (n : nat) : string :=
  match n with
  | O => ""
  | S n' => s +:+ str_mul s n'
  end.

(** [float(n)]: the nearest binary64, ties to even. *)
Definition float_of_int (n : Z) : float :=
  SF2Prim (binary_normalize 53 1024 n 0 false).

(** [a / b] on ints: the quotient as a float. For a divisor that is a power
    of two, as here, it is [float(a) / float(b)]. *)
Definition int_truediv (a b : Z) : float := (float_of_int a / float_of_int b)%float.

(** [x / y] on floats *)
Definition float_truediv (x y : float) : Py float :=
  λ w, if (y =? 0)%float
       then (Raise (Exc (ZeroDivisionError "float division by zero")), w)
       else (Return (x / y)%float, w).

(** [Path.stat()] *)
Definition stat (p : Path) : Py stat_result := read_fs (λ fs, os_stat fs p).

(** [DataFrame.to_parquet(path, engine, compression, index)], in the order
    pandas works: the engine is found and the table converted, then the
    destination is opened for writing, which truncates it, then pyarrow
    encodes and writes. A write that goes through leaves the encoder's
    bytes. One that fails before the open leaves the file system as it
    was; one that fails after it leaves the destination with what had been
    written, and nothing removes it. *)
Definition to_parquet (df : DataFrame scalar) (path : Path)
    (engine compression : string) (index : bool) : Py unit :=
  match parquet_encode engine compression index df with
  | inr bytes => update_fs (λ fs, open_write fs path bytes)
  | inl e =>
      match parquet_written engine compression index df with
      | None => raise e
      | Some partial => update_fs (λ fs, open_write fs path partial);; raise e
      end
  end.

(** *** convert_to_parquet.py *)

(**
<<
def get_file_size_mb(file_path: Path) -> float:
    return file_path.stat().st_size / (1024 * 1024)
>> *)
Definition get_file_size_mb (file_path : Path) : Py float :=
  st ← stat file_path;
  ret (int_truediv (st_size st) (1024 * 1024)).

(** The two [except] clauses of [convert_csv_to_parquet], in order:
    [except FileNotFoundError] and [except Exception as e]. *)
Definition convert_handlers (csv_path : Path) (e : exception) : Py unit :=
  match e with
  | FileNotFoundError _ =>
      print [Lit "Error: CSV file not found at "; FPath csv_path];;
      sys_exit 1
  | _ =>
      print [Lit "Error during conversion: "; FExc e];;
      sys_exit 1
  end.

Definition convert_csv_to_parquet (csv_path parquet_path : Path) (chunk_size : Z)
    : Py unit :=
  print [Lit "Reading CSV file: "; FPath csv_path];;
  size ← get_file_size_mb csv_path;
  print [Lit "File size: "; FFloat ".2f" size; Lit " MB"; Lit NL];;
  try_except (
    df ← read_fs (λ fs, read_csv fs csv_path "utf-8" ["InvoiceDate"]);
    print [Lit "Dataset loaded successfully"];;
    print [Lit "Rows: "; FInt "," (len df)];;
    print [Lit "Columns: "; FInt "" (Z.of_nat (length (columns df)))];;
    print [Lit NL; Lit "Column names:"];;
    for_each (columns df) (λ col, print [Lit "  - "; FStr col]);;
    print [Lit NL; Lit "Basic statistics:"];;
    dates ← call (getitem df "InvoiceDate");
    date_min ← call (series_min dates);
    dates' ← call (getitem df "InvoiceDate");
    date_max ← call (series_max dates');
    print [Lit "  Date range: "; FCell date_min; Lit " to "; FCell date_max];;
    invoices ← call (getitem df "Invoice");
    print [Lit "  Unique invoices: "; FInt "," (nunique invoices)];;
    products ← call (getitem df "StockCode");
    print [Lit "  Unique products: "; FInt "," (nunique products)];;
    customers ← call (getitem df "Customer ID");
    print [Lit "  Unique customers: "; FInt "," (nunique customers)];;
    update_fs (λ fs, mkdir true true fs (parent parquet_path));;
    print [Lit NL; Lit "Converting to Parquet format..."];;
    to_parquet df parquet_path "pyarrow" "snappy" false;;
    print [Lit "Parquet file created: "; FPath parquet_path];;
    size' ← get_file_size_mb parquet_path;
    print [Lit "File size: "; FFloat ".2f" size'; Lit " MB"];;
    csv_size ← get_file_size_mb csv_path;
    parquet_size ← get_file_size_mb parquet_path;
    ratio ← float_truediv parquet_size csv_size;
    let compression_ratio := ((float_of_int 1 - ratio) * float_of_int 100)%float in
    print [Lit NL; FStr (str_mul "=" 60)];;
    print [Lit "CONVERSION SUMMARY"];;
    print [FStr (str_mul "=" 60)];;
    print [Lit "CSV size:          "; FFloat ">10.2f" csv_size; Lit " MB"];;
    print [Lit "Parquet size:      "; FFloat ">10.2f" parquet_size; Lit " MB"];;
    print [Lit "Compression ratio: "; FFloat ">10.1f" compression_ratio; Lit "%"];;
    print [Lit "Rows processed:    "; FInt ">10," (len df)];;
    print [FStr (str_mul "=" 60)]
  ) (convert_handlers csv_path).

(** The process that runs the script: Python sets [__file__]; the command
    line and the environment are there for the script to read. *)
Record process := {
  argv : list string;
  environ : gmap string string;
  script_file : Path
}.

Definition main (proc : process) : Py unit :=
  let project_root := parent (parent (parent (script_file proc))) in
  let csv_path := project_root // "data" // "raw" // "online_retail_II.csv" in
  let parquet_path := project_root // "data" // "processed" // "online_retail.parquet" in
  print [FStr (str_mul "=" 60)];;
  print [Lit "CSV to Parquet Conversion Tool"];;
  print [Lit "Online Retail II Dataset"];;
  print [FStr (str_mul "=" 60)];;
  print [];;
  convert_csv_to_parquet csv_path parquet_path 100000;;
  print [Lit NL; Lit "Conversion completed successfully!"];;
  print [Lit NL; Lit "Next steps:"];;
  print [Lit "  1. Review the Parquet file: "; FPath parquet_path];;
  print [Lit "  2. Upload both CSV and Parquet files to S3"];;
  print [Lit "  3. See docs/s3-upload-instructions.md for upload commands"].

(** The status the interpreter exits with: 0 when the script returns, the
    code of [sys.exit], and 1 after the traceback of an uncaught exception. *)
Definition exit_status {A} (o : outcome A) : Z :=
  match o with
  | Return _ => 0
  | Raise (SystemExit code) => code
  | Raise (Exc _) => 1
  end.

End Script.

(** ** A reference implementation of the interface

    A small stand-in for pandas and pyarrow, enough to run the script on
    concrete files: comma-separated text without quoting, every cell a string
    (an empty cell is missing), no timestamp inference, [min] and [max] in
    string order, and a Parquet file that is the magic number followed by
    the table as text. The encoder refuses a table it cannot read back,
    before it opens the destination. *)

Module reference.

#[export] Instance platform : Platform := {| dir_st_size := 4096 |}.

Fixpoint split_on (sep : Ascii.ascii) (s : string) : list string :=
  match s with
  | EmptyString => [""]
  | String c rest =>
      if decide (c = sep) then "" :: split_on sep rest
      else
        match split_on sep rest with
        | [] => [String c ""]
        | w :: ws => String c w :: ws
        end
  end.

Definition splitlines (s : string) : list string :=
  filter (λ l, l ≠ "") (split_on (Ascii.ascii_of_nat 10) s).

Definition cell_of (field : option string) : option string :=
  match field with
  | Some "" | None => None
  | Some v => Some v
  end.

Definition table (header : list string) (rows : list (list string)) : DataFrame string :=
  {| index := length rows;
     data := imap (λ i name, (name, (λ row : list string, cell_of (row !! i)) <$> rows)) header |}.

Definition tokenize (bytes : string) : exception + DataFrame string :=
  match splitlines bytes with
  | [] => inl (LibraryError "EmptyDataError" "No columns to parse from file")
  | header :: rows => inr (table (split_on ","%char header) (split_on ","%char <$> rows))
  end.

Definition tokenize_as (bytes encoding : string) : exception + DataFrame string :=
  if decide (encoding = "utf-8") then tokenize bytes
  else inl (LibraryError "LookupError" ("unknown encoding: " +:+ encoding)).

Definition least (lt : string → string → bool) (s : list (option string)) : option string :=
  foldr (λ v acc, match acc with
                  | Some a => if lt v a then Some v else Some a
                  | None => Some v
                  end) None (omap id s).

Definition render_cell (c : option string) : string := default "" c.

Fixpoint transpose (n : nat) (cols : list (list (option string))) : list (list (option string)) :=
  match n with
  | O => []
  | S n' => ((λ col, mjoin (head col)) <$> cols)
            :: transpose n' (tail <$> cols)
  end.

Definition render (df : DataFrame string) : string :=
  join NL (join "," (data df).*1
           :: ((λ row, join "," (render_cell <$> row)) <$> transpose (index df) (data df).*2)).

Definition with_index (df : DataFrame string) : DataFrame string :=
  {| index := index df;
     data := ("__index_level_0__", (λ i : nat, Some (pretty i)) <$> seq 0 (index df)) :: data df |}.

Definition magic : string := "PAR1" +:+ NL.

Definition read_table (bytes : string) : exception + DataFrame string :=
  if decide (String.substring 0 5 bytes = magic)
  then tokenize (String.substring 5 (String.length bytes - 5) bytes)
  else inl (LibraryError "ArrowInvalid" "Parquet magic bytes not found").

Definition write_table (engine compression : string) (keep_index : bool)
    (df : DataFrame string) : exception + string :=
  if decide (engine = "pyarrow") then
    let stored := if keep_index then with_index df else df in
    let bytes := magic +:+ render stored in
    match read_table bytes with
    | inr df' =>
        if decide (index df' = index stored
                   ∧ (data df').*1 = (data stored).*1)
        then inr bytes
        else inl (LibraryError "ArrowInvalid" "cannot encode this table")
    | inl e => inl e
    end
  else inl (LibraryError "ValueError" "engine must be one of 'pyarrow', 'fastparquet'").

(** The stand-in codec keeps rows and column names. *)
Lemma write_table_round_trip (engine compression : string) (df : DataFrame string)
    (bytes : string) :
  write_table engine compression false df = inr bytes →
  ∃ df', read_table bytes = inr df'
         ∧ index df' = index df ∧ (data df').*1 = (data df).*1.
Proof.
  unfold write_table. case_decide; [|done].
  destruct (read_table (magic +:+ render df)) as [|df'] eqn:Hread; [done|].
  case_decide as Hshape; [|done]. intros [= <-]. by exists df'.
Qed.

#[export] Instance pandas : Pandas := {|
  scalar := string;
  csv_tokenize := tokenize_as;
  to_datetime := id;
  series_min s := inr (least String.ltb s);
  series_max s := inr (least (λ a b, String.ltb b a) s);
  parquet_encode := write_table;
  parquet_written _ _ _ _ := None;
  parquet_decode := read_table
|}.

End reference.

(** * Properties *)

(** ** Paths and the file system *)

Section FileSystemFacts.

Lemma is_anchor_true (p : Path) : is_anchor p = true ↔ p = [] ∨ p = ["/"].
Proof. unfold is_anchor. by rewrite bool_decide_eq_true. Qed.

Lemma is_anchor_false (p : Path) : is_anchor p = false ↔ p ≠ [] ∧ p ≠ ["/"].
Proof. unfold is_anchor. rewrite bool_decide_eq_false. tauto. Qed.

Lemma parent_anchor (p : Path) : is_anchor p = true → parent p = p.
Proof.
  rewrite is_anchor_true. unfold parent. intros [->| ->]; by case_decide.
Qed.

Lemma parent_snoc (p : Path) (x : string) :
  is_anchor (p ++ [x]) = false → parent (p ++ [x]) = p.
Proof.
  rewrite is_anchor_false. intros [_ Hroot]. unfold parent.
  case_decide; [done|]. apply removelast_last.
Qed.

Lemma path_snoc (p : Path) :
  is_anchor p = false → ∃ x, p = parent p ++ [x].
Proof.
  intros Hp. destruct (is_anchor_false p) as [Hne _]. specialize (Hne Hp) as [Hne _].
  destruct (exists_last Hne) as (q & x & ->).
  exists x. by rewrite parent_snoc.
Qed.

Lemma parent_length (p : Path) :
  is_anchor p = false → (length (parent p) < length p)%nat.
Proof.
  intros Hp. destruct (path_snoc p Hp) as [x Hx].
  rewrite Hx at 2. rewrite length_app. simpl. lia.
Qed.

Lemma parent_fixed (p : Path) : parent p = p → is_anchor p = true.
Proof.
  intros Hp. destruct (is_anchor p) eqn:Ha; [done|].
  apply parent_length in Ha. rewrite Hp in Ha. lia.
Qed.

Lemma elem_of_levels (q p : Path) : q ∈ levels p ↔ q `prefix_of` p.
Proof.
  unfold levels. rewrite list_elem_of_fmap. split.
  - intros (k & -> & _). exists (drop k p). by rewrite take_drop.
  - intros [r ->]. exists (length q). split.
    + by rewrite take_app_length.
    + apply elem_of_seq. rewrite length_app. lia.
Qed.

Lemma levels_self (p : Path) : p ∈ levels p.
Proof. by apply elem_of_levels. Qed.

Lemma levels_parent (p : Path) : parent p ∈ levels p.
Proof.
  apply elem_of_levels. destruct (is_anchor p) eqn:Ha.
  - by rewrite parent_anchor.
  - destruct (path_snoc p Ha) as [x Hx]. by exists [x].
Qed.

Lemma levels_trans (q r p : Path) : q ∈ levels r → r ∈ levels p → q ∈ levels p.
Proof. rewrite !elem_of_levels. apply transitivity. Qed.

Lemma levels_shorter (q p : Path) : q ∈ levels p → (length q ≤ length p)%nat.
Proof. rewrite elem_of_levels. apply prefix_length. Qed.

Lemma lookup_node_anchor (fs : FileSystem) (p : Path) :
  is_anchor p = true → lookup_node fs p = Some Dir.
Proof. intros Hp. unfold lookup_node. by rewrite Hp. Qed.

Lemma lookup_node_entry (fs : FileSystem) (p : Path) :
  is_anchor p = false → lookup_node fs p = fs !! p.
Proof. intros Hp. unfold lookup_node. by rewrite Hp. Qed.

Lemma lookup_node_insert (fs : FileSystem) (p : Path) (n : node) :
  is_anchor p = false → lookup_node (<[p := n]> fs) p = Some n.
Proof. intros Hp. rewrite lookup_node_entry by done. apply lookup_insert_eq. Qed.

Lemma lookup_node_insert_ne (fs : FileSystem) (p q : Path) (n : node) :
  p ≠ q → lookup_node (<[p := n]> fs) q = lookup_node fs q.
Proof. intros Hpq. unfold lookup_node. by rewrite lookup_insert_ne. Qed.

Lemma lookup_node_None (fs : FileSystem) (p : Path) :
  lookup_node fs p = None → is_anchor p = false ∧ fs !! p = None.
Proof. unfold lookup_node. by destruct (is_anchor p). Qed.

(** With [parents=False] the call is one [os.mkdir], whatever the fuel. *)
Lemma mkdir_fuel_single (fuel : nat) (exist_ok : bool) (fs : FileSystem) (p : Path) :
  mkdir_fuel fuel false exist_ok fs p =
  match os_mkdir fs p with
  | inr fs' => inr fs'
  | inl (FileNotFoundError q) => inl (FileNotFoundError q)
  | inl e => if negb exist_ok || negb (is_dir fs p) then inl e else inr fs
  end.
Proof. destruct fuel; simpl; by destruct (os_mkdir fs p) as [[]|]. Qed.

Lemma parent_ne (p : Path) : is_anchor p = false → parent p ≠ p.
Proof. intros Ha Hp. apply parent_fixed in Hp. congruence. Qed.

(** The recursion of [mkdir] never runs out of fuel: more than the fuel it
    starts with changes nothing. *)
Lemma mkdir_fuel_enough (fuel : nat) (parents exist_ok : bool) (fs : FileSystem) (p : Path) :
  (length p < fuel)%nat →
  mkdir_fuel fuel parents exist_ok fs p = mkdir parents exist_ok fs p.
Proof.
  unfold mkdir.
  assert (∀ f f' ps eo fs p, (length p < f)%nat → (length p < f')%nat →
          mkdir_fuel f ps eo fs p = mkdir_fuel f' ps eo fs p) as Hsame; [|auto].
  clear. induction f as [|f IH]; intros [|f'] ps eo fs p Hf Hf'; try lia.
  simpl. destruct (os_mkdir fs p) as [[]|]; try done.
  destruct (negb ps || bool_decide (parent p = p)) eqn:Hstop; [done|].
  apply orb_false_elim in Hstop as [_ Hparent%bool_decide_eq_false].
  assert (length (parent p) < length p)%nat as Hshorter.
  { apply parent_length. destruct (is_anchor p) eqn:Ha; [|done].
    by apply parent_anchor in Ha. }
  rewrite (IH f' true true fs (parent p)) by lia.
  destruct (mkdir_fuel f' true true fs (parent p)) as [|fs1]; [done|].
  by rewrite !mkdir_fuel_single.
Qed.

Lemma is_dir_insert_ne (fs : FileSystem) (p q : Path) (n : node) :
  p ≠ q → is_dir (<[p := n]> fs) q = is_dir fs q.
Proof. intros Hpq. unfold is_dir. by rewrite lookup_node_insert_ne. Qed.

Lemma is_dir_insert_dir (fs : FileSystem) (p q : Path) :
  is_dir fs q = true → is_dir (<[p := Dir]> fs) q = true.
Proof.
  intros Hq. destruct (decide (p = q)) as [<-|Hne]; [|by rewrite is_dir_insert_ne].
  unfold is_dir, lookup_node in *. destruct (is_anchor p); [done|].
  by rewrite lookup_insert_eq.
Qed.

(** Adding an entry under an existing directory keeps the shape, as long as
    no directory is replaced by a file. *)
Lemma fs_ok_insert (fs : FileSystem) (p : Path) (n : node) :
  fs_ok fs → is_anchor p = false → is_dir fs (parent p) = true →
  n = Dir ∨ is_dir fs p = false →
  fs_ok (<[p := n]> fs).
Proof.
  intros Hok Ha Hparent Hn q m Hq.
  destruct (decide (p = q)) as [<-|Hne].
  - rewrite is_dir_insert_ne; [done|]. intros Heq. by apply (parent_ne p).
  - rewrite lookup_insert_ne in Hq by done. apply Hok in Hq.
    destruct (decide (p = parent q)) as [Heq|Hne']; [|by rewrite is_dir_insert_ne].
    rewrite <- Heq in *. destruct Hn as [->|Hn]; [|congruence].
    by apply is_dir_insert_dir.
Qed.

(** In a well-shaped file system every level above a directory is one. *)
Lemma fs_ok_levels (fs : FileSystem) (p : Path) :
  fs_ok fs → is_dir fs p = true → Forall (λ q, is_dir fs q = true) (levels p).
Proof.
  intros Hok. revert p. apply (rev_ind (λ p, is_dir fs p = true → Forall _ (levels p))).
  - intros _. apply Forall_forall. intros q Hq%elem_of_levels%prefix_nil_inv. by subst.
  - intros x p IH Hp. apply Forall_forall. intros q Hq%elem_of_levels.
    destruct Hq as [r Hr].
    destruct r as [|y r _] using rev_ind.
    { rewrite app_nil_r in Hr. by subst. }
    rewrite app_assoc in Hr. apply app_inj_tail in Hr as [-> _].
    assert (is_dir fs (q ++ r) = true) as Hdir.
    { destruct (is_anchor ((q ++ r) ++ [x])) eqn:Ha.
      - apply is_anchor_true in Ha as [Ha|Ha]; [by destruct (q ++ r)|].
        destruct (q ++ r) as [|? [|]]; simplify_eq/=. done.
      - unfold is_dir in Hp. rewrite lookup_node_entry in Hp by done.
        destruct (fs !! ((q ++ r) ++ [x])) as [n|] eqn:Hn; [|done].
        apply Hok in Hn. by rewrite parent_snoc in Hn. }
    specialize (IH Hdir). rewrite Forall_forall in IH. apply IH.
    apply elem_of_levels. by exists r.
Qed.

(** [mkdir(parents=True, exist_ok=True)] on a directory that is there. *)
Lemma mkdir_existing (fuel : nat) (fs : FileSystem) (p : Path) :
  fs_ok fs → is_dir fs p = true → mkdir_fuel fuel true true fs p = inr fs.
Proof.
  intros Hok Hp.
  assert (os_mkdir fs p = inl (FileExistsError p)) as Hmk.
  { unfold os_mkdir.
    assert (is_dir fs (parent p) = true) as Hparent.
    { pose proof (fs_ok_levels fs p Hok Hp) as Hl. rewrite Forall_forall in Hl.
      apply Hl, levels_parent. }
    unfold is_dir in Hp, Hparent.
    destruct (lookup_node fs (parent p)) as [[]|]; try done.
    by destruct (lookup_node fs p) as [[]|]. }
  destruct fuel; simpl; rewrite Hmk, Hp; done.
Qed.


Lemma os_mkdir_inr (fs fs' : FileSystem) (p : Path) :
  os_mkdir fs p = inr fs' →
  is_dir fs (parent p) = true ∧ fs !! p = None ∧ is_anchor p = false ∧ fs' = <[p := Dir]> fs.
Proof.
  unfold os_mkdir, is_dir. destruct (lookup_node fs (parent p)) as [[]|]; try done.
  destruct (lookup_node fs p) eqn:Hp; [done|].
  apply lookup_node_None in Hp as [? ?]. naive_solver.
Qed.



Lemma open_write_inr (fs fs' : FileSystem) (p : Path) (bytes : string) :
  open_write fs p bytes = inr fs' →
  is_anchor p = false ∧ is_dir fs p = false ∧ is_dir fs (parent p) = true
  ∧ fs' = <[p := File bytes]> fs.
Proof.
  unfold open_write, is_dir. intros Hw.
  destruct (is_anchor p) eqn:Ha.
  { by rewrite lookup_node_anchor in Hw. }
  destruct (lookup_node fs p) as [[]|];
    destruct (lookup_node fs (parent p)) as [[]|]; naive_solver.
Qed.


Lemma open_write_read (fs fs' : FileSystem) (p : Path) (bytes : string) :
  open_write fs p bytes = inr fs' → open_read fs' p = inr bytes.
Proof.
  intros (Ha & _ & _ & ->)%open_write_inr.
  unfold open_read. by rewrite lookup_node_insert.
Qed.

End FileSystemFacts.

(** ** The script *)

Section Properties.
Context `{Platform, Pandas}.
Open Scope py_scope.

(** *** Running a computation *)

Lemma for_each_print {A} (xs : list A) (f : A → line) (w : world) :
  for_each xs (λ x, print (f x)) w
  = (Return tt, {| files := files w; stdout := stdout w ++ (f <$> xs) |}).
Proof.
  revert w. induction xs as [|x xs IH]; intros w; simpl.
  - unfold ret. rewrite app_nil_r. by destruct w.
  - unfold bind, print at 1. rewrite IH. simpl.
    by rewrite <- app_assoc.
Qed.

Lemma returns_from_fst {A} (r : outcome A * world) (a : A) :
  r.1 = Return a → r = (Return a, r.2).
Proof. destruct r as [o w']. simpl. congruence. Qed.

Lemma for_each_lines {A} (xs : list A) (f : A → line) (w : world) :
  for_each xs (λ x w, (Return tt, {| files := files w; stdout := stdout w ++ [f x] |})) w
  = (Return tt, {| files := files w; stdout := stdout w ++ (f <$> xs) |}).
Proof. apply (for_each_print xs f w). Qed.

Lemma get_file_size_mb_run (p : Path) (w : world) (st : stat_result) :
  os_stat (files w) p = inr st →
  get_file_size_mb p w = (Return (int_truediv (st_size st) (1024 * 1024)), w).
Proof.
  intros Hst. unfold get_file_size_mb, bind, stat, read_fs, call.
  by rewrite Hst.
Qed.

(** Both handlers print one line and leave through [sys.exit(1)]. *)
Lemma handlers_exit (csv_path : Path) (e : exception) (w : world) :
  ∃ l, convert_handlers csv_path e w
       = (Raise (SystemExit 1), {| files := files w; stdout := stdout w ++ [l] |})
       ∧ (l = [Lit "Error: CSV file not found at "; FPath csv_path]
          ∨ l = [Lit "Error during conversion: "; FExc e]).
Proof. destruct e; eexists; split; try reflexivity; auto. Qed.

#[local] Arguments mkdir : simpl never.
#[local] Arguments os_stat : simpl never.
#[local] Arguments read_csv : simpl never.
#[local] Arguments getitem : simpl never.
#[local] Arguments open_write : simpl never.
#[local] Arguments nunique : simpl never.
#[local] Arguments len : simpl never.
#[local] Arguments columns : simpl never.
#[local] Arguments int_truediv : simpl never.
#[local] Arguments float_of_int : simpl never.
#[local] Arguments str_mul : simpl never.
#[local] Arguments PrimFloat.eqb : simpl never.

(** Symbolic execution: the script unfolds into the calls it makes, and a
    run is followed one call at a time. *)
Ltac py_unfold :=
  unfold convert_csv_to_parquet, try_except, get_file_size_mb, to_parquet,
    float_truediv, stat, read_fs, update_fs, call, bind, print, ret, raise, sys_exit.

Ltac py_unfold_in H :=
  unfold convert_csv_to_parquet, try_except, get_file_size_mb, to_parquet,
    float_truediv, stat, read_fs, update_fs, call, bind, print, ret, raise, sys_exit in H.

Ltac inner_destruct H :=
  match type of H with
  | context [match ?x with _ => _ end] =>
      lazymatch x with
      | context [match _ with _ => _ end] => fail
      | _ => destruct x eqn:?
      end
  end.

Ltac handler_absurd H :=
  match type of H with
  | convert_handlers ?c ?e ?w = _ =>
      let l := fresh "l" in
      let Hl := fresh "Hl" in
      destruct (handlers_exit c e w) as (l & Hl & _); congruence
  end.

Ltac py_inv H :=
  repeat (first [ rewrite for_each_lines in H
                | progress cbn in H
                | discriminate H
                | handler_absurd H
                | inner_destruct H ]).

Lemma snoc5 {A} (pre : list A) (a b c d e : A) :
  ((((pre ++ [a]) ++ [b]) ++ [c]) ++ [d]) ++ [e] = pre ++ [a; b; c; d; e].
Proof. by rewrite <- !app_assoc. Qed.

(** The run of [convert_csv_to_parquet] on a source that is not there: the
    first line is printed, [stat] raises at line 39, before the [try]. *)
Lemma convert_missing_source (csv_path parquet_path : Path) (chunk_size : Z) (w : world) :
  lookup_node (files w) csv_path = None →
  convert_csv_to_parquet csv_path parquet_path chunk_size w
  = (Raise (Exc (FileNotFoundError csv_path)),
     {| files := files w;
        stdout := stdout w ++ [[Lit "Reading CSV file: "; FPath csv_path]] |}).
Proof.
  intros Hp. py_unfold. cbn. unfold os_stat. by rewrite Hp.
Qed.

(** What a run that returns went through: the table was loaded, the
    directory made, the table encoded and written, and the summary printed
    from the sizes of the two files as they are at the end. *)
Lemma convert_returns (csv_path parquet_path : Path) (chunk_size : Z) (w w' : world) :
  convert_csv_to_parquet csv_path parquet_path chunk_size w = (Return tt, w') →
  ∃ df fs1 bytes csv_size parquet_size pre,
    read_csv (files w) csv_path "utf-8" ["InvoiceDate"] = inr df
    ∧ mkdir true true (files w) (parent parquet_path) = inr fs1
    ∧ parquet_encode "pyarrow" "snappy" false df = inr bytes
    ∧ open_write fs1 parquet_path bytes = inr (files w')
    ∧ get_file_size_mb csv_path w' = (Return csv_size, w')
    ∧ get_file_size_mb parquet_path w' = (Return parquet_size, w')
    ∧ (csv_size =? 0)%float = false
    ∧ stdout w' =
        pre ++
        [ [Lit "CSV size:          "; FFloat ">10.2f" csv_size; Lit " MB"];
          [Lit "Parquet size:      "; FFloat ">10.2f" parquet_size; Lit " MB"];
          [Lit "Compression ratio: ";
           FFloat ">10.1f" ((float_of_int 1 - parquet_size / csv_size) * float_of_int 100);
           Lit "%"];
          [Lit "Rows processed:    "; FInt ">10," (len df)];
          [FStr (str_mul "=" 60)] ].
Proof.
  intros Hrun. py_unfold_in Hrun. py_inv Hrun. simplify_eq.
  do 6 eexists. split_and!; cbn;
    first [ eassumption | by apply get_file_size_mb_run | apply snoc5 | done ].
Qed.

(** A computation only appends to the console, and takes the file system
    along [R]. *)
Definition effect {A : Type} (R : relation FileSystem) (m : Py A) : Prop :=
  ∀ w, ∃ out, stdout (m w).2 = stdout w ++ out ∧ R (files w) (files (m w).2).

Section effects.
Context (R : relation FileSystem) `{!PreOrder R}.

Lemma effect_pure {A : Type} (m : Py A) :
  (∀ w, (m w).2 = w) → effect R m.
Proof.
  intros Hm w. exists []. rewrite Hm, app_nil_r. done.
Qed.

Lemma effect_ret {A : Type} (a : A) : effect R (ret a).
Proof. by apply effect_pure. Qed.

Lemma effect_call {A : Type} (r : exception + A) : effect R (call r).
Proof. apply effect_pure. intros w. unfold call. by destruct r. Qed.

Lemma effect_read_fs {A : Type} (f : FileSystem → exception + A) : effect R (read_fs f).
Proof. apply effect_pure. intros w. unfold read_fs, call. by destruct (f (files w)). Qed.

Lemma effect_sys_exit {A : Type} (code : Z) : effect R (@sys_exit _ A code).
Proof. by apply effect_pure. Qed.

Lemma effect_float_truediv (x y : float) : effect R (float_truediv x y).
Proof. apply effect_pure. intros w. unfold float_truediv. by destruct (y =? 0)%float. Qed.

Lemma effect_print (l : line) : effect R (print l).
Proof. intros w. exists [l]. done. Qed.

Lemma effect_bind {A B : Type} (m : Py A) (k : A → Py B) :
  effect R m → (∀ a, effect R (k a)) → effect R (bind m k).
Proof.
  intros Hm Hk w. unfold bind. destruct (Hm w) as (out & Hout & HR).
  destruct (m w) as [[a|r] w1]; simpl in *.
  - destruct (Hk a w1) as (out' & Hout' & HR').
    exists (out ++ out'). rewrite Hout', Hout, app_assoc. split; [done|by etrans].
  - by exists out.
Qed.

Lemma effect_try_except {A : Type} (body : Py A) (handler : exception → Py A) :
  effect R body → (∀ e, effect R (handler e)) → effect R (try_except body handler).
Proof.
  intros Hm Hk w. unfold try_except. destruct (Hm w) as (out & Hout & HR).
  destruct (body w) as [[a|[e|code]] w1]; simpl in *; try by exists out.
  destruct (Hk e w1) as (out' & Hout' & HR').
  exists (out ++ out'). rewrite Hout', Hout, app_assoc. split; [done|by etrans].
Qed.

Lemma effect_for_each {A : Type} (xs : list A) (body : A → Py unit) :
  (∀ x, effect R (body x)) → effect R (for_each xs body).
Proof.
  intros Hbody. induction xs as [|x xs IH]; simpl.
  - apply effect_ret.
  - by apply effect_bind.
Qed.

Lemma effect_get_file_size_mb (p : Path) : effect R (get_file_size_mb p).
Proof.
  apply effect_bind; [apply effect_read_fs|intros; apply effect_ret].
Qed.

Lemma effect_convert_handlers (csv_path : Path) (e : exception) :
  effect R (convert_handlers csv_path e).
Proof.
  destruct e; (apply effect_bind; [apply effect_print|intros; apply effect_sys_exit]).
Qed.

End effects.

(** No constraint on the file system. *)
Definition any_fs : relation FileSystem := λ _ _, True.

#[local] Instance any_fs_preorder : PreOrder any_fs.
Proof. by split. Qed.

Lemma effect_update_fs (f : FileSystem → exception + FileSystem) :
  effect any_fs (update_fs f).
Proof.
  intros w. exists []. unfold update_fs.
  destruct (f (files w)); simpl; by rewrite app_nil_r.
Qed.

Lemma effect_to_parquet (df : DataFrame scalar) (path : Path)
    (engine compression : string) (keep_index : bool) :
  effect any_fs (to_parquet df path engine compression keep_index).
Proof.
  intros w. exists []. rewrite app_nil_r. unfold to_parquet, bind, update_fs, raise.
  destruct (parquet_encode engine compression keep_index df) as [e|bytes].
  - destruct (parquet_written engine compression keep_index df) as [partial|]; [|done].
    by destruct (open_write (files w) path partial).
  - by destruct (open_write (files w) path bytes).
Qed.

Ltac effect_auto :=
  repeat first
    [ apply effect_try_except | apply effect_bind | apply effect_for_each
    | apply effect_print | apply effect_call | apply effect_read_fs
    | apply effect_ret | apply effect_sys_exit | apply effect_float_truediv
    | apply effect_get_file_size_mb | apply effect_convert_handlers
    | apply effect_update_fs | apply effect_to_parquet
    | apply _ | intros ? ].

#[local] Arguments bind : simpl never.
#[local] Arguments try_except : simpl never.
#[local] Arguments for_each : simpl never.
#[local] Arguments get_file_size_mb : simpl never.
#[local] Arguments to_parquet : simpl never.
#[local] Arguments convert_handlers : simpl never.

Lemma bind_eq {A B : Type} (m : Py A) (k : A → Py B) (w : world) :
  bind m k w = match m w with
               | (Return a, w1) => k a w1
               | (Raise r, w1) => (Raise r, w1)
               end.
Proof. reflexivity. Qed.

Lemma try_bind {A B : Type} (m : Py A) (k : A → Py B) (h : exception → Py B) (w : world) :
  try_except (bind m k) h w
  = match m w with
    | (Return a, w1) => try_except (k a) h w1
    | (Raise (Exc e), w1) => h e w1
    | (Raise (SystemExit code), w1) => (Raise (SystemExit code), w1)
    end.
Proof. unfold try_except, bind. by destruct (m w) as [[a|[e|code]] w1]. Qed.

Lemma read_csv_stat (fs : FileSystem) (p : Path) (df : DataFrame scalar) enc dates :
  read_csv fs p enc dates = inr df →
  ∃ st, os_stat fs p = inr st.
Proof.
  unfold read_csv, open_read, os_stat.
  destruct (lookup_node fs p) as [[]|]; [eauto|done..].
Qed.

#[local] Arguments print : simpl never.
#[local] Arguments call : simpl never.
#[local] Arguments read_fs : simpl never.
#[local] Arguments update_fs : simpl never.

(** *** Rules for following a run inside the [try] block *)

Lemma bind_print {B : Type} (l : line) (k : unit → Py B) (w : world) :
  bind (print l) k w = k tt {| files := files w; stdout := stdout w ++ [l] |}.
Proof. reflexivity. Qed.

Lemma try_print {B : Type} (l : line) (k : unit → Py B) (h : exception → Py B) (w : world) :
  try_except (bind (print l) k) h w
  = try_except (k tt) h {| files := files w; stdout := stdout w ++ [l] |}.
Proof. reflexivity. Qed.

Lemma try_for_each_print {A B : Type} (xs : list A) (f : A → line) (k : unit → Py B)
    (h : exception → Py B) (w : world) :
  try_except (bind (for_each xs (λ x, print (f x))) k) h w
  = try_except (k tt) h {| files := files w; stdout := stdout w ++ (f <$> xs) |}.
Proof. rewrite try_bind. by rewrite for_each_print. Qed.

Lemma try_call_inr {A B : Type} (r : exception + A) (a : A) (k : A → Py B)
    (h : exception → Py B) (w : world) :
  r = inr a → try_except (bind (call r) k) h w = try_except (k a) h w.
Proof. by intros ->. Qed.

Lemma try_call_inl {A B : Type} (r : exception + A) (e : exception) (k : A → Py B)
    (h : exception → Py B) (w : world) :
  r = inl e → try_except (bind (call r) k) h w = h e w.
Proof. by intros ->. Qed.

Lemma try_read_fs_inr {A B : Type} (f : FileSystem → exception + A) (a : A) (k : A → Py B)
    (h : exception → Py B) (w : world) :
  f (files w) = inr a → try_except (bind (read_fs f) k) h w = try_except (k a) h w.
Proof. intros Hf. rewrite try_bind. unfold read_fs, call. by rewrite Hf. Qed.

Lemma try_read_fs_inl {A B : Type} (f : FileSystem → exception + A) (e : exception) (k : A → Py B)
    (h : exception → Py B) (w : world) :
  f (files w) = inl e → try_except (bind (read_fs f) k) h w = h e w.
Proof. intros Hf. rewrite try_bind. unfold read_fs, call. by rewrite Hf. Qed.

Lemma try_update_fs_inr {B : Type} (f : FileSystem → exception + FileSystem) (fs' : FileSystem)
    (k : unit → Py B) (h : exception → Py B) (w : world) :
  f (files w) = inr fs' →
  try_except (bind (update_fs f) k) h w
  = try_except (k tt) h {| files := fs'; stdout := stdout w |}.
Proof. intros Hf. rewrite try_bind. unfold update_fs. by rewrite Hf. Qed.

Lemma try_update_fs_inl {B : Type} (f : FileSystem → exception + FileSystem) (e : exception)
    (k : unit → Py B) (h : exception → Py B) (w : world) :
  f (files w) = inl e → try_except (bind (update_fs f) k) h w = h e w.
Proof. intros Hf. rewrite try_bind. unfold update_fs. by rewrite Hf. Qed.

Ltac py_run :=
  repeat (first [ rewrite try_print
                | rewrite try_for_each_print
                | erewrite try_call_inr by eassumption
                | erewrite try_read_fs_inr by (cbn; eassumption)
                | erewrite try_update_fs_inr by (cbn; eassumption) ];
          cbn).

Lemma NoDup_omap_id {A} (l : list (option A)) : NoDup l → NoDup (omap id l).
Proof.
  induction 1 as [|[v|] l Hx Hl IH]; simpl; [constructor| |done].
  constructor; [|done]. rewrite list_elem_of_omap. intros ([w|] & Hin & Heq); by simplify_eq/=.
Qed.

Lemma nunique_values (s : Series scalar) : nunique s = Z.of_nat (size (values s)).
Proof.
  unfold nunique, unique, values. f_equal.
  rewrite <- (size_list_to_set (C := gset scalar)) by apply NoDup_omap_id, NoDup_remove_dups.
  f_equal. apply set_eq. intros v. rewrite !elem_of_list_to_set, !list_elem_of_omap.
  by setoid_rewrite elem_of_remove_dups.
Qed.

Lemma peel3 {A : Type} (pre post : list A) (a b c : A) :
  (((pre ++ [a]) ++ [b]) ++ [c]) ++ post = pre ++ [a; b; c] ++ post.
Proof. by rewrite <- !app_assoc. Qed.

(** *** What [read_csv] returns *)

Lemma columns_parse_date_columns (names : list string) (raw : DataFrame scalar) :
  columns (parse_date_columns names raw) = columns raw.
Proof.
  unfold columns, parse_date_columns. simpl. rewrite <- list_fmap_compose.
  apply list_fmap_ext. intros _ [name s] _. simpl. by case_decide.
Qed.

Lemma len_parse_date_columns (names : list string) (raw : DataFrame scalar) :
  len (parse_date_columns names raw) = len raw.
Proof. reflexivity. Qed.

Lemma read_csv_inr (fs : FileSystem) (path : Path) (encoding : string)
    (parse_dates : list string) (df : DataFrame scalar) :
  read_csv fs path encoding parse_dates = inr df →
  ∃ bytes raw,
    open_read fs path = inr bytes
    ∧ csv_tokenize bytes encoding = inr raw
    ∧ missing_columns parse_dates raw = []
    ∧ df = parse_date_columns parse_dates raw.
Proof.
  unfold read_csv. intros Hread.
  destruct (open_read fs path) as [|bytes]; [done|].
  destruct (csv_tokenize bytes encoding) as [|raw] eqn:Htok; [done|].
  destruct (missing_columns parse_dates raw) eqn:Hmissing; [|done].
  exists bytes, raw. by simplify_eq.
Qed.

(** *** Columns *)

Lemma get_column_present (cols : list (string * Series scalar)) (key : string) :
  key ∈ cols.*1 → is_Some (get_column cols key).
Proof.
  induction cols as [|[name s] cols IH]; simpl.
  - by intros ?%elem_of_nil.
  - intros Hkey. case_decide; [done|].
    apply elem_of_cons in Hkey as [?|?]; [by simplify_eq|auto].
Qed.

Lemma get_column_missing (cols : list (string * Series scalar)) (key : string) :
  key ∉ cols.*1 → get_column cols key = None.
Proof.
  induction cols as [|[name s] cols IH]; simpl; [done|].
  intros Hkey. apply not_elem_of_cons in Hkey as [? ?]. case_decide; [by simplify_eq|auto].
Qed.

Lemma getitem_present (df : DataFrame scalar) (key : string) :
  key ∈ columns df → ∃ s, getitem df key = inr s.
Proof.
  intros [s Hs]%get_column_present. exists s. unfold getitem. by rewrite Hs.
Qed.

Lemma getitem_missing (df : DataFrame scalar) (key : string) :
  key ∉ columns df → getitem df key = inl (KeyError key).
Proof. intros Hkey%get_column_missing. unfold getitem. by rewrite Hkey. Qed.

Lemma open_read_stat (fs : FileSystem) (p : Path) (bytes : string) :
  open_read fs p = inr bytes → ∃ st, os_stat fs p = inr st.
Proof.
  unfold open_read, os_stat. destruct (lookup_node fs p) as [[]|]; [eauto|done..].
Qed.

Lemma missing_columns_present (name : string) (df : DataFrame scalar) :
  name ∈ columns df → missing_columns [name] df = [].
Proof.
  intros Hname. unfold missing_columns. rewrite filter_cons, filter_nil.
  by rewrite decide_False by auto.
Qed.

Lemma missing_columns_missing (name : string) (df : DataFrame scalar) :
  name ∉ columns df → missing_columns [name] df = [name].
Proof.
  intros Hname. unfold missing_columns. rewrite filter_cons, filter_nil.
  by rewrite decide_True.
Qed.

(** The columns the script asks the table for. *)
Definition required_columns : list string :=
  ["InvoiceDate"; "Invoice"; "StockCode"; "Customer ID"].

Ltac py_fail He :=
  py_run; erewrite try_call_inl by exact He;
  match goal with
  | |- context [convert_handlers ?c ?e ?w0] =>
      let l := fresh "l" in
      let Hl := fresh "Hl" in
      destruct (handlers_exit c e w0) as (l & -> & Hl);
      eexists _, e, l; cbn; split; [|split; [exact Hl|]]
  end.

Ltac elem_of_console :=
  repeat first [ apply list_elem_of_here | apply elem_of_app; right ].

Ltac stats_done :=
  split; [done|]; intros _;
  eexists _, _; split_and!; [eassumption|eassumption|elem_of_console|];
  first [ by left | by (right; left)
        | right; right; eexists; (split; [|split; [|reflexivity]]);
          [by repeat first [apply list_elem_of_here | apply list_elem_of_further]
          |eassumption] ].

Ltac console_eq :=
  do 2 f_equal; rewrite (app_assoc (stdout _)); f_equal;
  rewrite <- !app_assoc; reflexivity.

(** *** The directory and the write *)

(** The statistics step goes through: the four columns are there and
    [min] and [max] return. *)
Definition statistics_computed (df : DataFrame scalar) : Prop :=
  ∃ dates date_min date_max invoices products customers,
    getitem df "InvoiceDate" = inr dates
    ∧ series_min dates = inr date_min
    ∧ series_max dates = inr date_max
    ∧ getitem df "Invoice" = inr invoices
    ∧ getitem df "StockCode" = inr products
    ∧ getitem df "Customer ID" = inr customers.

Lemma to_parquet_run (df : DataFrame scalar) (path : Path)
    (engine compression : string) (keep_index : bool) (w : world) :
  to_parquet df path engine compression keep_index w
  = match parquet_encode engine compression keep_index df with
    | inl e =>
        match parquet_written engine compression keep_index df with
        | None => (Raise (Exc e), w)
        | Some partial =>
            match open_write (files w) path partial with
            | inl e' => (Raise (Exc e'), w)
            | inr fs' => (Raise (Exc e), {| files := fs'; stdout := stdout w |})
            end
        end
    | inr bytes =>
        match open_write (files w) path bytes with
        | inl e => (Raise (Exc e), w)
        | inr fs' => (Return tt, {| files := fs'; stdout := stdout w |})
        end
    end.
Proof.
  unfold to_parquet, bind, update_fs, raise.
  destruct (parquet_encode engine compression keep_index df) as [e|bytes]; [|done].
  destruct (parquet_written engine compression keep_index df) as [partial|]; [|done].
  by destruct (open_write (files w) path partial).
Qed.





(** *** Leaving through [sys.exit] *)

(** A computation that never leaves through [sys.exit]. *)
Definition no_exit {A : Type} (m : Py A) : Prop :=
  ∀ w code, (m w).1 ≠ Raise (SystemExit code).

Lemma no_exit_bind {A B : Type} (m : Py A) (k : A → Py B) :
  no_exit m → (∀ a, no_exit (k a)) → no_exit (bind m k).
Proof.
  intros Hm Hk w code. unfold bind. specialize (Hm w).
  destruct (m w) as [[a|r] w1]; simpl in *; [apply Hk|].
  intros [= ->]. by destruct (Hm code).
Qed.

Lemma no_exit_print (l : line) : no_exit (print l).
Proof. by intros w code. Qed.

Lemma no_exit_ret {A : Type} (a : A) : no_exit (ret a).
Proof. by intros w code. Qed.

Lemma no_exit_call {A : Type} (r : exception + A) : no_exit (call r).
Proof. intros w code. unfold call. by destruct r. Qed.

Lemma no_exit_read_fs {A : Type} (f : FileSystem → exception + A) : no_exit (read_fs f).
Proof. intros w code. unfold read_fs, call. by destruct (f (files w)). Qed.

Lemma no_exit_update_fs (f : FileSystem → exception + FileSystem) : no_exit (update_fs f).
Proof. intros w code. unfold update_fs. by destruct (f (files w)). Qed.

Lemma no_exit_float_truediv (x y : float) : no_exit (float_truediv x y).
Proof. intros w code. unfold float_truediv. by destruct (y =? 0)%float. Qed.

Lemma no_exit_for_each {A : Type} (xs : list A) (body : A → Py unit) :
  (∀ x, no_exit (body x)) → no_exit (for_each xs body).
Proof.
  intros Hbody. induction xs as [|x xs IH].
  - apply no_exit_ret.
  - by apply no_exit_bind.
Qed.

Lemma no_exit_to_parquet (df : DataFrame scalar) (path : Path)
    (engine compression : string) (keep_index : bool) :
  no_exit (to_parquet df path engine compression keep_index).
Proof.
  intros w code. rewrite to_parquet_run.
  destruct (parquet_encode engine compression keep_index df) as [e|bytes].
  - destruct (parquet_written engine compression keep_index df) as [partial|]; [|done].
    by destruct (open_write (files w) path partial).
  - by destruct (open_write (files w) path bytes).
Qed.

Ltac no_exit_auto :=
  repeat first
    [ apply no_exit_bind | apply no_exit_for_each | apply no_exit_print
    | apply no_exit_call | apply no_exit_read_fs | apply no_exit_update_fs
    | apply no_exit_ret | apply no_exit_float_truediv | apply no_exit_to_parquet
    | intros ? ].

Lemma is_anchor_snoc (p : Path) (x : string) : p ≠ [] → is_anchor (p ++ [x]) = false.
Proof.
  intros Hp. apply is_anchor_false. split; [by destruct p|].
  destruct p as [|y [|z p]]; [done|..]; discriminate.
Qed.

(** *** What a run does to the file system *)

(** From [fs] to [fs']: entries are only added, the new ones are
    directories on the way to [p], and a well-shaped file system stays
    well-shaped. *)
Definition grows_towards (p : Path) (fs fs' : FileSystem) : Prop :=
  (fs_ok fs → fs_ok fs')
  ∧ ∀ q, fs' !! q = fs !! q ∨ (fs !! q = None ∧ fs' !! q = Some Dir ∧ q ∈ levels p).

Lemma grows_towards_refl (p : Path) (fs : FileSystem) : grows_towards p fs fs.
Proof. split; [done|]. by left. Qed.

Lemma grows_towards_trans (p : Path) (fs1 fs2 fs3 : FileSystem) :
  grows_towards p fs1 fs2 → grows_towards p fs2 fs3 → grows_towards p fs1 fs3.
Proof.
  intros [Hok12 H12] [Hok23 H23]. split; [auto|]. intros q.
  destruct (H12 q) as [Heq|(Hnone & Hdir & Hq)], (H23 q) as [Heq'|(Hnone' & Hdir' & Hq')].
  - left. congruence.
  - right. split_and!; [congruence|done|done].
  - right. split_and!; [done|congruence|done].
  - congruence.
Qed.

Lemma grows_towards_parent (p : Path) (fs fs' : FileSystem) :
  grows_towards (parent p) fs fs' → grows_towards p fs fs'.
Proof.
  intros [Hok Hframe]. split; [done|]. intros q.
  destruct (Hframe q) as [?|(? & ? & ?)]; [by left|right].
  split_and!; [done..|]. eapply levels_trans; [done|apply levels_parent].
Qed.

Lemma os_mkdir_grows (fs fs' : FileSystem) (p : Path) :
  os_mkdir fs p = inr fs' → grows_towards p fs fs'.
Proof.
  intros (Hdir & Hnone & Ha & ->)%os_mkdir_inr. split.
  - intros Hok. apply fs_ok_insert; auto.
  - intros q. destruct (decide (p = q)) as [<-|Hne].
    + right. rewrite lookup_insert_eq. split_and!; [done..|apply levels_self].
    + left. by rewrite lookup_insert_ne.
Qed.

(** Whatever its arguments, a [mkdir] that returns has only added
    directories on the way to its path. *)
Lemma mkdir_fuel_grows (fuel : nat) (parents exist_ok : bool) (fs fs' : FileSystem)
    (p : Path) :
  mkdir_fuel fuel parents exist_ok fs p = inr fs' → grows_towards p fs fs'.
Proof.
  revert parents exist_ok fs fs' p.
  induction fuel as [|fuel IH]; intros ps eo fs fs' p; simpl;
    destruct (os_mkdir fs p) as [e|fs0] eqn:Hmkdir;
    try (intros [= <-]; by apply os_mkdir_grows);
    destruct e;
    try (destruct (negb eo || negb (is_dir fs p)); [done|];
         intros [= <-]; apply grows_towards_refl);
    destruct (negb ps || bool_decide (parent p = p)); try done.
  destruct (mkdir_fuel fuel true true fs (parent p)) as [|fs1] eqn:Hparent; [done|].
  intros Hself. eapply grows_towards_trans.
  - apply grows_towards_parent. by eapply IH.
  - by eapply IH.
Qed.

(** What [convert_csv_to_parquet] may do to the file system: add
    directories on the way to the destination's parent, and write the
    destination. *)
Definition touches (parquet_path : Path) (fs fs' : FileSystem) : Prop :=
  (fs_ok fs → fs_ok fs')
  ∧ ∀ q, q ≠ parquet_path →
      fs' !! q = fs !! q
      ∨ (fs !! q = None ∧ fs' !! q = Some Dir ∧ q ∈ levels (parent parquet_path)).

#[local] Instance touches_preorder (parquet_path : Path) : PreOrder (touches parquet_path).
Proof.
  split.
  - intros fs. split; [done|]. by left.
  - intros fs1 fs2 fs3 [Hok12 H12] [Hok23 H23]. split; [auto|]. intros q Hq.
    destruct (H12 q Hq) as [Heq|(Hnone & Hdir & Hlevel)],
      (H23 q Hq) as [Heq'|(Hnone' & Hdir' & Hlevel')].
    + left. congruence.
    + right. split_and!; [congruence|done|done].
    + right. split_and!; [done|congruence|done].
    + congruence.
Qed.

Lemma effect_mkdir_parent (parquet_path : Path) :
  effect (touches parquet_path)
    (update_fs (λ fs, mkdir true true fs (parent parquet_path))).
Proof.
  intros w. exists []. unfold update_fs. rewrite app_nil_r.
  destruct (mkdir true true (files w) (parent parquet_path)) as [|fs1] eqn:Hmkdir;
    simpl; (split; [done|]); [reflexivity|].
  apply mkdir_fuel_grows in Hmkdir as [Hok Hframe]. split; [done|]. auto.
Qed.

Lemma effect_write (parquet_path : Path) (bytes : string) :
  effect (touches parquet_path) (update_fs (λ fs, open_write fs parquet_path bytes)).
Proof.
  intros w. exists []. unfold update_fs. rewrite app_nil_r.
  destruct (open_write (files w) parquet_path bytes) as [|fs2] eqn:Hwrite;
    simpl; (split; [done|]); [reflexivity|].
  apply open_write_inr in Hwrite as (Ha & Hnodir & Hparent & ->). split.
  - intros Hok. apply fs_ok_insert; auto.
  - intros q Hq. left. by rewrite lookup_insert_ne.
Qed.

Lemma effect_touches_to_parquet (df : DataFrame scalar) (parquet_path : Path)
    (engine compression : string) (keep_index : bool) :
  effect (touches parquet_path)
    (to_parquet df parquet_path engine compression keep_index).
Proof.
  unfold to_parquet.
  destruct (parquet_encode engine compression keep_index df) as [e|bytes];
    [destruct (parquet_written engine compression keep_index df) as [partial|]|].
  - apply (effect_bind (touches parquet_path)); [apply effect_write|].
    intros _. by apply (effect_pure (touches parquet_path)).
  - by apply (effect_pure (touches parquet_path)).
  - apply effect_write.
Qed.

Ltac touches_auto :=
  repeat lazymatch goal with
  | |- ∀ _, _ => intros ?
  | |- effect ?R (bind _ _) => apply (effect_bind R)
  | |- effect ?R (try_except _ _) => apply (effect_try_except R)
  | |- effect ?R (for_each _ _) => apply (effect_for_each R)
  | |- effect ?R (print _) => apply (effect_print R)
  | |- effect ?R (call _) => apply (effect_call R)
  | |- effect ?R (read_fs _) => apply (effect_read_fs R)
  | |- effect ?R (float_truediv _ _) => apply (effect_float_truediv R)
  | |- effect ?R (get_file_size_mb _) => apply (effect_get_file_size_mb R)
  | |- effect ?R (convert_handlers _ _) => apply (effect_convert_handlers R)
  | |- effect _ (update_fs (λ fs, mkdir _ _ fs _)) => apply effect_mkdir_parent
  | |- effect _ (update_fs (λ fs, open_write fs _ _)) => apply effect_write
  | |- effect _ (to_parquet _ _ _ _ _) => apply effect_touches_to_parquet
  end.

(** *** A regular file on the way to the directory *)

Lemma levels_cases (q p : Path) : q ∈ levels p → q = p ∨ q ∈ levels (parent p).
Proof.
  intros Hq. destruct (is_anchor p) eqn:Ha.
  { right. by rewrite parent_anchor. }
  destruct (path_snoc p Ha) as [x Hx]. rewrite Hx in Hq.
  apply elem_of_levels in Hq as [r Hr].
  destruct r as [|y r _] using rev_ind.
  - left. rewrite app_nil_r in Hr. congruence.
  - right. rewrite app_assoc in Hr. apply app_inj_tail in Hr as [Hr _].
    apply elem_of_levels. by exists r.
Qed.

Lemma fs_ok_lookup_parent (fs : FileSystem) (p : Path) (n : node) :
  fs_ok fs → lookup_node fs p = Some n → is_dir fs (parent p) = true.
Proof.
  intros Hok Hp. destruct (is_anchor p) eqn:Ha.
  - rewrite parent_anchor by done. unfold is_dir. by rewrite lookup_node_anchor.
  - rewrite lookup_node_entry in Hp by done. by apply Hok in Hp.
Qed.

Lemma is_file_not_dir (fs : FileSystem) (p : Path) :
  is_file fs p = true → is_dir fs p = false.
Proof. unfold is_file, is_dir. by destruct (lookup_node fs p) as [[]|]. Qed.

Lemma fs_ok_file_above (fs : FileSystem) (p q : Path) :
  fs_ok fs → q ∈ levels p → is_file fs q = true → is_dir fs p = false.
Proof.
  intros Hok Hq Hfile. destruct (is_dir fs p) eqn:Hdir; [|done].
  apply (fs_ok_levels _ _ Hok) in Hdir. rewrite Forall_forall in Hdir.
  apply Hdir in Hq. apply is_file_not_dir in Hfile. congruence.
Qed.

(** With a regular file among the levels of [p], [mkdir] raises: the
    [NotADirectoryError] or the [FileExistsError] of the first [os.mkdir]
    that meets the file. *)
Lemma mkdir_fuel_blocked (fuel : nat) (fs : FileSystem) (p q : Path) :
  fs_ok fs → q ∈ levels p → is_file fs q = true → (length p < fuel)%nat →
  ∃ p', mkdir_fuel fuel true true fs p = inl (NotADirectoryError p')
        ∨ mkdir_fuel fuel true true fs p = inl (FileExistsError p').
Proof.
  intros Hok. revert p.
  assert (∀ p, q ∈ levels p → is_file fs q = true →
               lookup_node fs (parent p) = None → q ∈ levels (parent p)) as Hup.
  { intros p Hq Hfile Hparent. destruct (levels_cases _ _ Hq) as [->|Hq']; [|done].
    unfold is_file in Hfile. destruct (lookup_node fs p) as [n|] eqn:Hp; [|done].
    apply (fs_ok_lookup_parent _ _ _ Hok) in Hp. unfold is_dir in Hp.
    by rewrite Hparent in Hp. }
  assert (∀ p, q ∈ levels p → is_file fs q = true →
               lookup_node fs (parent p) = Some Dir → is_Some (lookup_node fs p)) as Hthere.
  { intros p Hq Hfile Hparent. destruct (levels_cases _ _ Hq) as [->|Hq'].
    - unfold is_file in Hfile. by destruct (lookup_node fs p).
    - assert (is_dir fs (parent p) = true) as Hdir by (unfold is_dir; by rewrite Hparent).
      by rewrite (fs_ok_file_above _ _ _ Hok Hq' Hfile) in Hdir. }
  induction fuel as [|fuel IH]; intros p Hq Hfile Hfuel; [lia|].
  pose proof (fs_ok_file_above _ _ _ Hok Hq Hfile) as Hnodir.
  simpl. unfold os_mkdir.
  destruct (lookup_node fs (parent p)) as [[data|]|] eqn:Hparent.
  - rewrite Hnodir. simpl. exists p. by left.
  - destruct (Hthere p Hq Hfile Hparent) as [n ->]. rewrite Hnodir. simpl.
    exists p. by right.
  - destruct (is_anchor p) eqn:Ha.
    { rewrite parent_anchor, lookup_node_anchor in Hparent; done. }
    rewrite bool_decide_eq_false_2 by by apply parent_ne. simpl.
    pose proof (parent_length p Ha) as Hshorter.
    destruct (IH (parent p) (Hup p Hq Hfile Hparent) Hfile) as [p' [-> | ->]];
      [lia|by exists p'; left|by exists p'; right].
Qed.

Lemma mkdir_blocked (fs : FileSystem) (p q : Path) :
  fs_ok fs → q ∈ levels p → is_file fs q = true →
  ∃ p', mkdir true true fs p = inl (NotADirectoryError p')
        ∨ mkdir true true fs p = inl (FileExistsError p').
Proof. intros Hok Hq Hfile. apply (mkdir_fuel_blocked _ fs p q); [done..|lia]. Qed.

(** *** Runs that go through *)






Lemma try_to_parquet_write {B : Type} (df : DataFrame scalar) (path : Path)
    (engine compression : string) (keep_index : bool) (bytes : string)
    (e : exception) (k : unit → Py B) (h : exception → Py B) (w : world) :
  parquet_encode engine compression keep_index df = inr bytes →
  open_write (files w) path bytes = inl e →
  try_except (bind (to_parquet df path engine compression keep_index) k) h w = h e w.
Proof. intros Hencode Hwrite. by rewrite try_bind, to_parquet_run, Hencode, Hwrite. Qed.



(** The steps of a run that returns: the converse of [convert_completes]. *)
Lemma convert_returns_steps (csv_path parquet_path : Path) (chunk_size : Z)
    (w w' : world) :
  convert_csv_to_parquet csv_path parquet_path chunk_size w = (Return tt, w') →
  ∃ df fs1 bytes st,
    read_csv (files w) csv_path "utf-8" ["InvoiceDate"] = inr df
    ∧ statistics_computed df
    ∧ mkdir true true (files w) (parent parquet_path) = inr fs1
    ∧ parquet_encode "pyarrow" "snappy" false df = inr bytes
    ∧ open_write fs1 parquet_path bytes = inr (files w')
    ∧ os_stat (files w') csv_path = inr st
    ∧ (int_truediv (st_size st) (1024 * 1024) =? 0)%float = false.
Proof.
  intros Hrun. py_unfold_in Hrun. py_inv Hrun. simplify_eq.
  do 4 eexists. split_and!; cbn; first [eassumption | reflexivity | idtac].
  unfold statistics_computed. do 6 eexists. split_and!; eassumption.
Qed.

(** *** What a run prints *)

(** Every line a computation prints satisfies [P]. *)
Definition prints {A : Type} (P : line → Prop) (m : Py A) : Prop :=
  ∀ w, ∃ out, stdout (m w).2 = stdout w ++ out ∧ Forall P out.

Section prints.
Context (P : line → Prop).

Lemma prints_silent {A : Type} (m : Py A) :
  (∀ w, stdout (m w).2 = stdout w) → prints P m.
Proof. intros Hm w. exists []. by rewrite Hm, app_nil_r. Qed.

Lemma prints_ret {A : Type} (a : A) : prints P (ret a).
Proof. by apply prints_silent. Qed.

Lemma prints_call {A : Type} (r : exception + A) : prints P (call r).
Proof. apply prints_silent. intros w. unfold call. by destruct r. Qed.

Lemma prints_read_fs {A : Type} (f : FileSystem → exception + A) : prints P (read_fs f).
Proof. apply prints_silent. intros w. unfold read_fs, call. by destruct (f (files w)). Qed.

Lemma prints_update_fs (f : FileSystem → exception + FileSystem) : prints P (update_fs f).
Proof. apply prints_silent. intros w. unfold update_fs. by destruct (f (files w)). Qed.

Lemma prints_sys_exit {A : Type} (code : Z) : prints P (sys_exit (A := A) code).
Proof. by apply prints_silent. Qed.

Lemma prints_float_truediv (x y : float) : prints P (float_truediv x y).
Proof. apply prints_silent. intros w. unfold float_truediv. by destruct (y =? 0)%float. Qed.

Lemma prints_print (l : line) : P l → prints P (print l).
Proof. intros Hl w. exists [l]. split; [done|]. by constructor. Qed.

Lemma prints_bind {A B : Type} (m : Py A) (k : A → Py B) :
  prints P m → (∀ a, prints P (k a)) → prints P (bind m k).
Proof.
  intros Hm Hk w. rewrite bind_eq. destruct (Hm w) as (out & Hout & HP).
  destruct (m w) as [[a|r] w1]; simpl in *.
  - destruct (Hk a w1) as (out' & Hout' & HP'). exists (out ++ out').
    rewrite Hout', Hout, app_assoc. split; [done|]. by apply Forall_app.
  - by exists out.
Qed.

Lemma prints_try_except {A : Type} (body : Py A) (handler : exception → Py A) :
  prints P body → (∀ e, prints P (handler e)) → prints P (try_except body handler).
Proof.
  intros Hm Hk w. unfold try_except. destruct (Hm w) as (out & Hout & HP).
  destruct (body w) as [[a|[e|code]] w1]; simpl in *; try by exists out.
  destruct (Hk e w1) as (out' & Hout' & HP'). exists (out ++ out').
  rewrite Hout', Hout, app_assoc. split; [done|]. by apply Forall_app.
Qed.

Lemma prints_for_each {A : Type} (xs : list A) (f : A → line) :
  (∀ x, P (f x)) → prints P (for_each xs (λ x, print (f x))).
Proof.
  intros Hf w. rewrite for_each_print. exists (f <$> xs). split; [done|].
  apply Forall_fmap, Forall_forall. intros x _. apply Hf.
Qed.

Lemma prints_get_file_size_mb (p : Path) : prints P (get_file_size_mb p).
Proof.
  apply prints_bind; [apply prints_read_fs|intros; apply prints_ret].
Qed.

Lemma prints_to_parquet (df : DataFrame scalar) (path : Path)
    (engine compression : string) (keep_index : bool) :
  prints P (to_parquet df path engine compression keep_index).
Proof.
  apply prints_silent. intros w. rewrite to_parquet_run.
  destruct (parquet_encode engine compression keep_index df) as [e|bytes].
  - destruct (parquet_written engine compression keep_index df) as [partial|]; [|done].
    by destruct (open_write (files w) path partial).
  - by destruct (open_write (files w) path bytes).
Qed.

Lemma prints_convert_handlers (csv_path : Path) (e : exception) :
  P [Lit "Error: CSV file not found at "; FPath csv_path] →
  (∀ e', P [Lit "Error during conversion: "; FExc e']) →
  prints P (convert_handlers csv_path e).
Proof.
  intros Hmissing Hother.
  destruct e; (apply prints_bind; [by apply prints_print|intros; apply prints_sys_exit]).
Qed.

End prints.

Ltac prints_auto :=
  repeat lazymatch goal with
  | |- ∀ _, _ => intros ?
  | |- prints _ (bind _ _) => apply prints_bind
  | |- prints _ (try_except _ _) => apply prints_try_except
  | |- prints _ (for_each _ _) => apply prints_for_each
  | |- prints _ (print _) => apply prints_print
  | |- prints _ (call _) => apply prints_call
  | |- prints _ (read_fs _) => apply prints_read_fs
  | |- prints _ (update_fs _) => apply prints_update_fs
  | |- prints _ (float_truediv _ _) => apply prints_float_truediv
  | |- prints _ (get_file_size_mb _) => apply prints_get_file_size_mb
  | |- prints _ (to_parquet _ _ _ _ _) => apply prints_to_parquet
  | |- prints _ (convert_handlers _ _) => apply prints_convert_handlers
  end.

(** How a run of [convert_csv_to_parquet] can end: it returns, the [stat]
    before the [try] raises, or a handler leaves through [sys.exit(1)]. *)
Lemma convert_outcome (csv_path parquet_path : Path) (chunk_size : Z) (w : world) :
  (convert_csv_to_parquet csv_path parquet_path chunk_size w).1 = Return tt
  ∨ (convert_csv_to_parquet csv_path parquet_path chunk_size w).1
    = Raise (Exc (FileNotFoundError csv_path))
  ∨ (convert_csv_to_parquet csv_path parquet_path chunk_size w).1
    = Raise (SystemExit 1).
Proof.
  destruct (os_stat (files w) csv_path) as [e|st] eqn:Hst.
  { right; left. rewrite convert_missing_source; [done|].
    unfold os_stat in Hst. by destruct (lookup_node (files w) csv_path). }
  unfold convert_csv_to_parquet.
  rewrite bind_print, bind_eq, (get_file_size_mb_run _ _ st) by done. cbn.
  rewrite bind_print.
  match goal with
  | |- context [try_except ?body ?h ?w0] =>
      assert (no_exit body) as Hbody
        by (unfold get_file_size_mb, stat; no_exit_auto);
      specialize (Hbody w0); unfold try_except;
      destruct (body w0) as [[[]|[e|code]] w1]
  end.
  - by left.
  - right; right. by destruct (handlers_exit csv_path e w1) as (l & -> & _).
  - by destruct (Hbody code).
Qed.




Lemma exit_world_eq (fs : FileSystem) (s x out : list line) (l : line) (code : Z) :
  x = s ++ out →
  (Raise (SystemExit code) : outcome unit, {| files := fs; stdout := x ++ [l] |})
  = (Raise (SystemExit code), {| files := fs; stdout := s ++ out ++ [l] |}).
Proof. intros ->. by rewrite <- app_assoc. Qed.

Ltac console_exit :=
  apply exit_world_eq; rewrite <- !app_assoc; reflexivity.

(** The second handler: what it prints for an exception that is not a
    [FileNotFoundError]. *)
Lemma handlers_other (csv_path : Path) (e : exception) (w : world) :
  (∀ p, e ≠ FileNotFoundError p) →
  convert_handlers csv_path e w
  = (Raise (SystemExit 1),
     {| files := files w;
        stdout := stdout w ++ [[Lit "Error during conversion: "; FExc e]] |}).
Proof. intros Hother. destruct e; try reflexivity. by destruct (Hother p). Qed.

(** *** Sizes and paths *)




(** ** The claims *)

(** C1: a conversion that succeeds writes a Parquet file that reads back
    with the rows and the columns of the CSV. The table [read_csv] built
    from the source (N rows, M named columns, as tokenized) is the table
    handed to the encoder, nothing is done to it in between, the
    destination holds the encoder's bytes when the run ends, and, for a
    codec that keeps rows and column names, decoding them gives N rows and
    the same M column names. *)
Theorem round_trip (csv_path parquet_path : Path) (chunk_size : Z) (w w' : world) :
  codec_round_trip →
  convert_csv_to_parquet csv_path parquet_path chunk_size w = (Return tt, w') →
  ∃ source raw df bytes df',
    open_read (files w) csv_path = inr source
    ∧ csv_tokenize source "utf-8" = inr raw
    ∧ read_csv (files w) csv_path "utf-8" ["InvoiceDate"] = inr df
    ∧ parquet_encode "pyarrow" "snappy" false df = inr bytes
    ∧ open_read (files w') parquet_path = inr bytes
    ∧ parquet_decode bytes = inr df'
    ∧ len df' = len raw
    ∧ columns df' = columns raw.
Proof.
  intros Hcodec Hrun.
  apply convert_returns in Hrun
    as (df & fs1 & bytes & _ & _ & _ & Hload & _ & Hencode & Hwrite & _).
  destruct (read_csv_inr _ _ _ _ _ Hload) as (source & raw & Hopen & Htok & _ & Hdf).
  destruct (Hcodec _ _ _ _ Hencode) as (df' & Hdecode & Hrows & Hcols).
  exists source, raw, df, bytes, df'. split_and!; try done.
  - by apply open_write_read in Hwrite.
  - by rewrite Hrows, Hdf.
  - by rewrite Hcols, Hdf, columns_parse_date_columns.
Qed.

(** C2 (the code does not do this): a missing source is meant to end in
    the [except FileNotFoundError] clause, with its message and
    [sys.exit(1)]. On an empty file system the run ends earlier: the size
    of the source is asked for at line 39, before the [try] at line 41, so
    the [FileNotFoundError] of [stat] leaves [convert_csv_to_parquet]
    uncaught, and the only line printed is the first one. *)
Theorem missing_source_escapes_the_handler :
  let csv_path := ["/"; "repo"; "data"; "raw"; "online_retail_II.csv"] in
  let parquet_path := ["/"; "repo"; "data"; "processed"; "online_retail.parquet"] in
  convert_csv_to_parquet csv_path parquet_path 100000 {| files := ∅; stdout := [] |}
  = (Raise (Exc (FileNotFoundError csv_path)),
     {| files := ∅; stdout := [[Lit "Reading CSV file: "; FPath csv_path]] |}).
Proof. intros csv_path parquet_path. by rewrite convert_missing_source. Qed.

(** C3: when the source path does not exist, the process exits with
    status 1 and the file system is left as it was: neither the
    destination nor any of its parent directories is created. *)
Theorem missing_source_changes_nothing (csv_path parquet_path : Path) (chunk_size : Z)
    (w : world) :
  lookup_node (files w) csv_path = None →
  exit_status (convert_csv_to_parquet csv_path parquet_path chunk_size w).1 = 1
  ∧ files (convert_csv_to_parquet csv_path parquet_path chunk_size w).2 = files w.
Proof. intros Hmissing. by rewrite convert_missing_source. Qed.


(** C5: [chunk_size] is dead. Two calls that differ only in it are the same
    computation: same console output, same effect on the file system, same
    way of returning or exiting, from every world. *)
Theorem chunk_size_is_dead (csv_path parquet_path : Path) (c1 c2 : Z) :
  convert_csv_to_parquet csv_path parquet_path c1
  = convert_csv_to_parquet csv_path parquet_path c2.
Proof. unfold convert_csv_to_parquet. reflexivity. Qed.

(** C6: [get_file_size_mb] returns the size in bytes of the entry at the
    path divided by 1,048,576, as a float, and changes nothing. It handles
    no error: on a path that does not exist the [FileNotFoundError] of
    [stat] is what the caller gets. *)
Theorem get_file_size_mb_spec (file_path : Path) (w : world) :
  get_file_size_mb file_path w
  = match lookup_node (files w) file_path with
    | Some n => (Return (float_of_int (node_size n) / 1048576)%float, w)
    | None => (Raise (Exc (FileNotFoundError file_path)), w)
    end.
Proof.
  unfold get_file_size_mb, bind, stat, read_fs, call, os_stat.
  by destruct (lookup_node (files w) file_path).
Qed.


(** C8: the three counts the script reports are the numbers of distinct
    values of the [Invoice], [StockCode] and [Customer ID] columns of the
    loaded table, however often a value repeats; a missing cell (NaN) is
    not a value. *)
Theorem distinct_counts (csv_path parquet_path : Path) (chunk_size : Z) (w : world)
    (df : DataFrame scalar) (dates invoices products customers : Series scalar)
    (date_min date_max : option scalar) :
  read_csv (files w) csv_path "utf-8" ["InvoiceDate"] = inr df →
  getitem df "InvoiceDate" = inr dates →
  series_min dates = inr date_min →
  series_max dates = inr date_max →
  getitem df "Invoice" = inr invoices →
  getitem df "StockCode" = inr products →
  getitem df "Customer ID" = inr customers →
  ∃ pre post,
    stdout (convert_csv_to_parquet csv_path parquet_path chunk_size w).2
    = stdout w ++ pre ++
      [ [Lit "  Unique invoices: "; FInt "," (Z.of_nat (size (values invoices)))];
        [Lit "  Unique products: "; FInt "," (Z.of_nat (size (values products)))];
        [Lit "  Unique customers: "; FInt "," (Z.of_nat (size (values customers)))] ]
      ++ post.
Proof.
  intros Hload Hdates Hmin Hmax Hinv Hprod Hcust.
  destruct (read_csv_stat _ _ _ _ _ Hload) as [st Hst].
  unfold convert_csv_to_parquet.
  rewrite bind_print, bind_eq, (get_file_size_mb_run _ _ st) by done. cbn.
  rewrite bind_print. py_run.
  match goal with
  | |- context [try_except ?body ?h ?w0] =>
      assert (effect any_fs (try_except body h)) as Hrest by effect_auto;
      destruct (Hrest w0) as (post & -> & _)
  end.
  cbn. rewrite !nunique_values.
  eexists _, post. rewrite peel3, (app_assoc (stdout w)). f_equal.
  rewrite <- !app_assoc. reflexivity.
Qed.




(** C10: a source that is there but lacks one of the four columns makes
    the run print an error and leave through [sys.exit(1)], with the file
    system as it was: no directory made, no file written. Without
    [InvoiceDate] it is [read_csv] that raises; with it the table is
    loaded and the error comes out of the statistics: from [min] or [max],
    or as the [KeyError] of a column that is not there. *)
Theorem missing_column_fails_before_the_write (csv_path parquet_path : Path)
    (chunk_size : Z) (w : world) (source : string) (raw : DataFrame scalar) :
  open_read (files w) csv_path = inr source →
  csv_tokenize source "utf-8" = inr raw →
  ¬ (required_columns ⊆ columns raw) →
  ∃ out e l,
    convert_csv_to_parquet csv_path parquet_path chunk_size w
    = (Raise (SystemExit 1),
       {| files := files w; stdout := stdout w ++ out ++ [l] |})
    ∧ (l = [Lit "Error: CSV file not found at "; FPath csv_path]
       ∨ l = [Lit "Error during conversion: "; FExc e])
    ∧ ("InvoiceDate" ∉ columns raw →
         read_csv (files w) csv_path "utf-8" ["InvoiceDate"] = inl e
         ∧ e = ValueError "Missing column provided to 'parse_dates': 'InvoiceDate'"
         ∧ l = [Lit "Error during conversion: "; FExc e])
    ∧ ("InvoiceDate" ∈ columns raw →
         ∃ df dates,
           read_csv (files w) csv_path "utf-8" ["InvoiceDate"] = inr df
           ∧ getitem df "InvoiceDate" = inr dates
           ∧ [Lit NL; Lit "Basic statistics:"] ∈ out
           ∧ (series_min dates = inl e ∨ series_max dates = inl e
              ∨ ∃ c, c ∈ ["Invoice"; "StockCode"; "Customer ID"]
                     ∧ (c ∉ columns raw) ∧ e = KeyError c)).
Proof.
  intros Hopen Htok Hmissing.
  destruct (open_read_stat _ _ _ Hopen) as [st Hst].
  unfold convert_csv_to_parquet.
  rewrite bind_print, bind_eq, (get_file_size_mb_run _ _ st) by done. cbn.
  rewrite bind_print.
  destruct (decide ("InvoiceDate" ∈ columns raw)) as [Hdate|Hdate].
  - (* the table is loaded *)
    set (df := parse_date_columns ["InvoiceDate"] raw).
    assert (read_csv (files w) csv_path "utf-8" ["InvoiceDate"] = inr df) as Hload.
    { unfold read_csv. by rewrite Hopen, Htok, missing_columns_present. }
    assert (columns df = columns raw) as Hcols by apply columns_parse_date_columns.
    destruct (getitem_present df "InvoiceDate") as [dates Hdates]; [by rewrite Hcols|].
    destruct (series_min dates) as [e|date_min] eqn:Hmin.
    { py_fail Hmin; [console_eq|]. stats_done. }
    destruct (series_max dates) as [e|date_max] eqn:Hmax.
    { py_fail Hmax; [console_eq|]. stats_done. }
    assert (∀ c, c ∉ columns raw → getitem df c = inl (KeyError c)) as Hget.
    { intros c Hc. apply getitem_missing. by rewrite Hcols. }
    destruct (decide ("Invoice" ∈ columns raw)) as [Hinv|Hinv].
    2:{ pose proof (Hget _ Hinv) as Herr. py_fail Herr; [console_eq|]. stats_done. }
    destruct (getitem_present df "Invoice") as [invoices Hinvoices]; [by rewrite Hcols|].
    destruct (decide ("StockCode" ∈ columns raw)) as [Hprod|Hprod].
    2:{ pose proof (Hget _ Hprod) as Herr. py_fail Herr; [console_eq|]. stats_done. }
    destruct (getitem_present df "StockCode") as [products Hproducts]; [by rewrite Hcols|].
    destruct (decide ("Customer ID" ∈ columns raw)) as [Hcust|Hcust].
    2:{ pose proof (Hget _ Hcust) as Herr. py_fail Herr; [console_eq|]. stats_done. }
    destruct Hmissing. intros c Hc. unfold required_columns in Hc.
    rewrite !elem_of_cons in Hc.
    by destruct Hc as [->|[->|[->|[->|?%elem_of_nil]]]].
  - (* [read_csv] raises *)
    assert (read_csv (files w) csv_path "utf-8" ["InvoiceDate"]
            = inl (ValueError "Missing column provided to 'parse_dates': 'InvoiceDate'"))
      as Hload.
    { unfold read_csv. by rewrite Hopen, Htok, missing_columns_missing. }
    erewrite try_read_fs_inl by exact Hload.
    unfold convert_handlers. rewrite bind_print. unfold sys_exit.
    eexists _, _, _. cbn. split; [console_eq|]. split_and!; [by right|done|done].
Qed.

(** ** Further properties *)

(** X1: every failure inside the [try] block is handled: once the source
    is there, the run either returns or prints an error as its last line and
    leaves through [sys.exit(1)]. *)
Theorem every_failure_is_handled (csv_path parquet_path : Path) (chunk_size : Z)
    (w : world) (st : stat_result) :
  os_stat (files w) csv_path = inr st →
  (convert_csv_to_parquet csv_path parquet_path chunk_size w).1 = Return tt
  ∨ ((convert_csv_to_parquet csv_path parquet_path chunk_size w).1 = Raise (SystemExit 1)
     ∧ ∃ pre e l,
         stdout (convert_csv_to_parquet csv_path parquet_path chunk_size w).2 = pre ++ [l]
         ∧ (l = [Lit "Error: CSV file not found at "; FPath csv_path]
            ∨ l = [Lit "Error during conversion: "; FExc e])).
Proof.
  intros Hst. unfold convert_csv_to_parquet.
  rewrite bind_print, bind_eq, (get_file_size_mb_run _ _ st) by done. cbn.
  rewrite bind_print.
  match goal with
  | |- context [try_except ?body ?h ?w0] =>
      assert (no_exit body) as Hbody
        by (unfold get_file_size_mb, stat; no_exit_auto);
      specialize (Hbody w0); unfold try_except;
      destruct (body w0) as [[[]|[e|code]] w1]
  end.
  - by left.
  - right. destruct (handlers_exit csv_path e w1) as (l & -> & Hl).
    split; [done|]. by exists (stdout w1), e, l.
  - by destruct (Hbody code).
Qed.




(** X4: [main] announces success only after a conversion that returned.
    On a console that does not show the line yet, either [main] returns,
    "Conversion completed successfully!" is printed and the destination
    [data/processed/online_retail.parquet] is a regular file; or the
    interpreter exits with status 1 and the line is not printed. *)
Theorem main_announces_success_only_after_conversion (proc : process) (w : world) :
  [Lit NL; Lit "Conversion completed successfully!"] ∉ stdout w →
  ((main proc w).1 = Return tt
   ∧ [Lit NL; Lit "Conversion completed successfully!"] ∈ stdout (main proc w).2
   ∧ ∃ bytes,
       open_read (files (main proc w).2)
         (parent (parent (parent (script_file proc)))
          // "data" // "processed" // "online_retail.parquet") = inr bytes)
  ∨ (exit_status (main proc w).1 = 1
     ∧ [Lit NL; Lit "Conversion completed successfully!"] ∉ stdout (main proc w).2).
Proof.
  intros Hfresh. unfold main. cbv zeta.
  repeat (rewrite bind_print; cbn [files stdout]). rewrite bind_eq.
  match goal with
  | |- context [convert_csv_to_parquet ?c ?p ?n ?w0] =>
      pose proof (convert_outcome c p n w0) as Hend;
      assert (prints (λ l, l ≠ [Lit NL; Lit "Conversion completed successfully!"])
                (convert_csv_to_parquet c p n)) as Hlines
        by (unfold convert_csv_to_parquet; prints_auto; done);
      destruct (Hlines w0) as (out & Hout & Hothers);
      destruct (convert_csv_to_parquet c p n w0) as [[[]|r] w1] eqn:Hrun
  end.
  - left. repeat (rewrite bind_print; cbn [files stdout]). unfold print.
    cbn [files stdout fst snd]. split_and!; [done| |].
    { do 4 (apply elem_of_app; left). apply elem_of_app; right. apply list_elem_of_here. }
    apply convert_returns_steps in Hrun
      as (df & fs1 & bytes & st & _ & _ & _ & _ & Hwrite & _).
    exists bytes. by eapply open_write_read.
  - right. cbn in *. split.
    + destruct Hend as [?|[?|?]]; by simplify_eq.
    + rewrite Hout. intros Hin. rewrite Forall_forall in Hothers.
      repeat (apply elem_of_app in Hin as [Hin|Hin]);
        first [ done | by apply list_elem_of_singleton in Hin | by apply Hothers in Hin ].
Qed.

(** X5: a regular file on the way to the destination's directory. In a
    well-shaped file system, when a level of the destination's parent path
    is a regular file, [mkdir] raises [NotADirectoryError] or
    [FileExistsError]; the run prints it as "Error during conversion" and
    leaves through [sys.exit(1)], and the file system is as it was. *)
Theorem directory_blocked_by_a_file (csv_path parquet_path : Path) (chunk_size : Z)
    (w : world) (df : DataFrame scalar) (q : Path) :
  fs_ok (files w) →
  read_csv (files w) csv_path "utf-8" ["InvoiceDate"] = inr df →
  statistics_computed df →
  q ∈ levels (parent parquet_path) →
  is_file (files w) q = true →
  ∃ out p' e,
    (e = NotADirectoryError p' ∨ e = FileExistsError p')
    ∧ mkdir true true (files w) (parent parquet_path) = inl e
    ∧ convert_csv_to_parquet csv_path parquet_path chunk_size w
      = (Raise (SystemExit 1),
         {| files := files w;
            stdout := stdout w ++ out ++ [[Lit "Error during conversion: "; FExc e]] |}).
Proof.
  intros Hok Hload (dates & date_min & date_max & invoices & products & customers
                    & Hdates & Hmin & Hmax & Hinv & Hprod & Hcust) Hq Hfile.
  destruct (mkdir_blocked _ _ _ Hok Hq Hfile) as [p' Hmkdir].
  destruct (read_csv_stat _ _ _ _ _ Hload) as [st Hst].
  unfold convert_csv_to_parquet.
  rewrite bind_print, bind_eq, (get_file_size_mb_run _ _ st) by done. cbn.
  rewrite bind_print. py_run.
  destruct Hmkdir as [Hmkdir|Hmkdir];
    erewrite try_update_fs_inl by (cbn; exact Hmkdir);
    unfold convert_handlers; rewrite bind_print; unfold sys_exit.
  - eexists _, p', _. split; [by left|]. split; [exact Hmkdir|]. cbn. console_exit.
  - eexists _, p', _. split; [by right|]. split; [exact Hmkdir|]. cbn. console_exit.
Qed.



(** X8: a destination that is a directory. In a well-shaped file system,
    once the table is loaded, the statistics are computed and the table is
    encoded, a run whose destination is a directory fails at the write:
    the [IsADirectoryError] is printed as "Error during conversion", the
    run leaves through [sys.exit(1)], and the file system is as it was. *)
Theorem destination_is_a_directory (csv_path parquet_path : Path) (chunk_size : Z)
    (w : world) (df : DataFrame scalar) (bytes : string) :
  fs_ok (files w) →
  read_csv (files w) csv_path "utf-8" ["InvoiceDate"] = inr df →
  statistics_computed df →
  parquet_encode "pyarrow" "snappy" false df = inr bytes →
  is_dir (files w) parquet_path = true →
  ∃ out,
    convert_csv_to_parquet csv_path parquet_path chunk_size w
    = (Raise (SystemExit 1),
       {| files := files w;
          stdout := stdout w ++ out
                    ++ [[Lit "Error during conversion: ";
                         FExc (IsADirectoryError parquet_path)]] |}).
Proof.
  intros Hok Hload (dates & date_min & date_max & invoices & products & customers
                    & Hdates & Hmin & Hmax & Hinv & Hprod & Hcust) Hencode Hdir.
  assert (mkdir true true (files w) (parent parquet_path) = inr (files w)) as Hmkdir.
  { unfold mkdir. apply mkdir_existing; [done|].
    unfold is_dir in Hdir.
    destruct (lookup_node (files w) parquet_path) as [n|] eqn:Hn; [|done].
    by eapply fs_ok_lookup_parent. }
  assert (open_write (files w) parquet_path bytes = inl (IsADirectoryError parquet_path))
    as Hwrite.
  { unfold open_write. unfold is_dir in Hdir.
    by destruct (lookup_node (files w) parquet_path) as [[]|]. }
  destruct (read_csv_stat _ _ _ _ _ Hload) as [st Hst].
  unfold convert_csv_to_parquet.
  rewrite bind_print, bind_eq, (get_file_size_mb_run _ _ st) by done. cbn.
  rewrite bind_print. py_run.
  erewrite try_to_parquet_write by (cbn; eassumption).
  unfold convert_handlers. rewrite bind_print. unfold sys_exit.
  eexists. cbn. console_exit.
Qed.

(** X9: [main] never alters its source. Whatever the outcome of a run, the
    entry at [data/raw/online_retail_II.csv] under the project root is
    what it was before, and a well-shaped file system is still
    well-shaped. *)
Theorem main_never_alters_the_source (proc : process) (w : world) :
  files (main proc w).2
    !! (parent (parent (parent (script_file proc)))
        // "data" // "raw" // "online_retail_II.csv")
  = files w
    !! (parent (parent (parent (script_file proc)))
        // "data" // "raw" // "online_retail_II.csv")
  ∧ (fs_ok (files w) → fs_ok (files (main proc w).2)).
Proof.
  set (project_root := parent (parent (parent (script_file proc)))).
  set (parquet_path := project_root // "data" // "processed" // "online_retail.parquet").
  assert (effect (touches parquet_path) (main proc)) as Heffect.
  { unfold main. cbv zeta. fold project_root. fold parquet_path.
    unfold convert_csv_to_parquet. touches_auto. }
  destruct (Heffect w) as (out & _ & Hok & Hframe). split; [|done].
  destruct (Hframe (project_root // "data" // "raw" // "online_retail_II.csv"))
    as [Heq|(_ & _ & Hlevel)]; [|done|].
  - unfold parquet_path, joinpath. intros Heq.
    apply app_inj_tail in Heq as [Heq _]. by apply app_inj_tail in Heq as [_ ?].
  - exfalso. apply levels_shorter in Hlevel.
    unfold parquet_path, joinpath in Hlevel. rewrite parent_snoc in Hlevel.
    + rewrite !length_app in Hlevel. simpl in Hlevel. lia.
    + apply is_anchor_snoc. by destruct (project_root ++ ["data"]).
Qed.


(** X11: the report on the loaded table. Once the source is tokenized and
    has the [InvoiceDate] column, the run prints the number of rows and of
    columns of the file as tokenized and then one line per column name, in
    file order: parsing the dates changes none of them. *)
Theorem dataset_report (csv_path parquet_path : Path) (chunk_size : Z) (w : world)
    (source : string) (raw : DataFrame scalar) :
  open_read (files w) csv_path = inr source →
  csv_tokenize source "utf-8" = inr raw →
  "InvoiceDate" ∈ columns raw →
  ∃ pre post,
    stdout (convert_csv_to_parquet csv_path parquet_path chunk_size w).2
    = stdout w ++ pre ++
      [ [Lit "Rows: "; FInt "," (len raw)];
        [Lit "Columns: "; FInt "" (Z.of_nat (length (columns raw)))];
        [Lit NL; Lit "Column names:"] ]
      ++ ((λ col, [Lit "  - "; FStr col]) <$> columns raw)
      ++ post.
Proof.
  intros Hopen Htok Hdate.
  assert (read_csv (files w) csv_path "utf-8" ["InvoiceDate"]
          = inr (parse_date_columns ["InvoiceDate"] raw)) as Hload.
  { unfold read_csv. by rewrite Hopen, Htok, missing_columns_present. }
  destruct (read_csv_stat _ _ _ _ _ Hload) as [st Hst].
  unfold convert_csv_to_parquet.
  rewrite bind_print, bind_eq, (get_file_size_mb_run _ _ st) by done. cbn.
  rewrite bind_print. py_run.
  match goal with
  | |- context [try_except ?body ?h ?w0] =>
      assert (effect any_fs (try_except body h)) as Hrest by effect_auto;
      destruct (Hrest w0) as (post & -> & _)
  end.
  cbn. rewrite len_parse_date_columns, columns_parse_date_columns.
  match goal with
  | |- context [((stdout w ++ [?a]) ++ [?b]) ++ [?c]] =>
      exists [a; b; c]
  end.
  eexists. rewrite <- !app_assoc. reflexivity.
Qed.

(** X12: a source that is there but cannot be loaded. When [read_csv]
    raises (anything but a [FileNotFoundError]: an empty file, a
    directory, bytes that are not UTF-8), the run prints three lines, the
    last one the error, leaves through [sys.exit(1)] and changes
    nothing. *)
Theorem load_failure_is_reported (csv_path parquet_path : Path) (chunk_size : Z)
    (w : world) (st : stat_result) (e : exception) :
  os_stat (files w) csv_path = inr st →
  read_csv (files w) csv_path "utf-8" ["InvoiceDate"] = inl e →
  (∀ p, e ≠ FileNotFoundError p) →
  convert_csv_to_parquet csv_path parquet_path chunk_size w
  = (Raise (SystemExit 1),
     {| files := files w;
        stdout := stdout w ++
          [ [Lit "Reading CSV file: "; FPath csv_path];
            [Lit "File size: "; FFloat ".2f" (int_truediv (st_size st) (1024 * 1024));
             Lit " MB"; Lit NL];
            [Lit "Error during conversion: "; FExc e] ] |}).
Proof.
  intros Hst Hload Hother. unfold convert_csv_to_parquet.
  rewrite bind_print, bind_eq, (get_file_size_mb_run _ _ st) by done. cbn.
  rewrite bind_print.
  erewrite try_read_fs_inl by (cbn; exact Hload).
  rewrite handlers_other by done. cbn. by rewrite <- !app_assoc.
Qed.

End Properties.

(** * The script at work

    The theorems above, applied to concrete files with the reference
    implementation of the interface. *)

Section Examples.
Import reference.

Definition sample_root : Path := ["/"; "repo"].
Definition sample_csv_path : Path := sample_root // "data" // "raw" // "online_retail_II.csv".
Definition sample_parquet_path : Path :=
  sample_root // "data" // "processed" // "online_retail.parquet".

(** Three rows, two of them of the same invoice and the same customer, the
    third without a customer. *)
Definition sample_csv : string :=
  "Invoice,StockCode,Customer ID,InvoiceDate" +:+ NL +:+
  "489434,85048,13085,2009-12-01 07:45" +:+ NL +:+
  "489434,79323P,13085,2009-12-01 07:45" +:+ NL +:+
  "489435,22350,,2009-12-01 07:46" +:+ NL.

(** The same rows without the [Customer ID] column. *)
Definition short_csv : string :=
  "Invoice,StockCode,InvoiceDate" +:+ NL +:+
  "489434,85048,2009-12-01 07:45" +:+ NL +:+
  "489434,79323P,2009-12-01 07:45" +:+ NL +:+
  "489435,22350,2009-12-01 07:46" +:+ NL.

Definition sample_invoices : Series string := [Some "489434"; Some "489434"; Some "489435"].
Definition sample_products : Series string := [Some "85048"; Some "79323P"; Some "22350"].
Definition sample_customers : Series string := [Some "13085"; Some "13085"; None].
Definition sample_dates : Series string :=
  [Some "2009-12-01 07:45"; Some "2009-12-01 07:45"; Some "2009-12-01 07:46"].

Definition sample_table : DataFrame string :=
  {| index := 3;
     data := [ ("Invoice", sample_invoices); ("StockCode", sample_products);
               ("Customer ID", sample_customers); ("InvoiceDate", sample_dates) ] |}.

Definition short_table : DataFrame string :=
  {| index := 3;
     data := [ ("Invoice", sample_invoices); ("StockCode", sample_products);
               ("InvoiceDate", sample_dates) ] |}.

(** The repository before the first run: [data/raw] holds the source,
    [data/processed] is not there yet. *)
Definition sample_files (source : string) : FileSystem :=
  <[sample_csv_path := File source]>
    (<[sample_root // "data" // "raw" := Dir]>
       (<[sample_root // "data" := Dir]> (<[sample_root := Dir]> ∅))).

Definition sample_world : world := {| files := sample_files sample_csv; stdout := [] |}.
Definition short_world : world := {| files := sample_files short_csv; stdout := [] |}.
Definition empty_world : world := {| files := ∅; stdout := [] |}.

Abbreviation sample_run :=
  (convert_csv_to_parquet sample_csv_path sample_parquet_path 100000 sample_world).

#[local] Instance fs_ok_dec (fs : FileSystem) : Decision (fs_ok fs).
Proof. unfold fs_ok. apply _. Defined.


Lemma sample_read :
  read_csv (files sample_world) sample_csv_path "utf-8" ["InvoiceDate"] = inr sample_table.
Proof. vm_compute. reflexivity. Qed.

Lemma sample_statistics : statistics_computed sample_table.
Proof. repeat eexists; vm_compute; reflexivity. Qed.


Lemma sample_returns : sample_run = (Return tt, sample_run.2).
Proof. apply returns_from_fst. vm_compute. reflexivity. Qed.

Lemma reference_codec : codec_round_trip.
Proof.
  intros engine compression df bytes Hwrite.
  destruct (write_table_round_trip engine compression df bytes Hwrite)
    as (df' & Hread & Hrows & Hcols).
  exists df'. split_and!; [exact Hread|unfold len; by f_equal|exact Hcols].
Qed.

Lemma round_trip_witness :
  codec_round_trip
  ∧ sample_run = (Return tt, sample_run.2)
  ∧ ∃ source raw df bytes df',
      open_read (files sample_world) sample_csv_path = inr source
      ∧ csv_tokenize source "utf-8" = inr raw
      ∧ read_csv (files sample_world) sample_csv_path "utf-8" ["InvoiceDate"] = inr df
      ∧ parquet_encode "pyarrow" "snappy" false df = inr bytes
      ∧ open_read (files sample_run.2) sample_parquet_path = inr bytes
      ∧ parquet_decode bytes = inr df'
      ∧ len df' = len raw
      ∧ columns df' = columns raw.
Proof.
  split; [exact reference_codec|]. split; [exact sample_returns|].
  exact (round_trip sample_csv_path sample_parquet_path 100000 sample_world
           sample_run.2 reference_codec sample_returns).
Defined.

Lemma missing_source_changes_nothing_witness :
  lookup_node (files empty_world) sample_csv_path = None
  ∧ exit_status
      (convert_csv_to_parquet sample_csv_path sample_parquet_path 100000 empty_world).1 = 1
  ∧ files (convert_csv_to_parquet sample_csv_path sample_parquet_path 100000 empty_world).2
    = files empty_world.
Proof.
  split; [vm_compute; reflexivity|].
  apply (missing_source_changes_nothing sample_csv_path sample_parquet_path 100000 empty_world).
  vm_compute. reflexivity.
Defined.



Lemma distinct_counts_witness :
  read_csv (files sample_world) sample_csv_path "utf-8" ["InvoiceDate"] = inr sample_table
  ∧ getitem sample_table "InvoiceDate" = inr sample_dates
  ∧ series_min sample_dates = inr (Some "2009-12-01 07:45")
  ∧ series_max sample_dates = inr (Some "2009-12-01 07:46")
  ∧ getitem sample_table "Invoice" = inr sample_invoices
  ∧ getitem sample_table "StockCode" = inr sample_products
  ∧ getitem sample_table "Customer ID" = inr sample_customers
  ∧ ∃ pre post,
      stdout sample_run.2
      = stdout sample_world ++ pre ++
        [ [Lit "  Unique invoices: "; FInt "," (Z.of_nat (size (values sample_invoices)))];
          [Lit "  Unique products: "; FInt "," (Z.of_nat (size (values sample_products)))];
          [Lit "  Unique customers: "; FInt "," (Z.of_nat (size (values sample_customers)))] ]
        ++ post.
Proof.
  split_and!; [exact sample_read|vm_compute; reflexivity..|].
  apply (distinct_counts sample_csv_path sample_parquet_path 100000 sample_world
           sample_table sample_dates sample_invoices sample_products sample_customers
           (Some "2009-12-01 07:45") (Some "2009-12-01 07:46"));
    first [exact sample_read | vm_compute; reflexivity].
Defined.

Lemma missing_column_fails_before_the_write_witness :
  open_read (files short_world) sample_csv_path = inr short_csv
  ∧ csv_tokenize short_csv "utf-8" = inr short_table
  ∧ ¬ (required_columns ⊆ columns short_table)
  ∧ ∃ out e l,
      convert_csv_to_parquet sample_csv_path sample_parquet_path 100000 short_world
      = (Raise (SystemExit 1),
         {| files := files short_world; stdout := stdout short_world ++ out ++ [l] |})
      ∧ (l = [Lit "Error: CSV file not found at "; FPath sample_csv_path]
         ∨ l = [Lit "Error during conversion: "; FExc e])
      ∧ ("InvoiceDate" ∉ columns short_table →
           read_csv (files short_world) sample_csv_path "utf-8" ["InvoiceDate"] = inl e
           ∧ e = ValueError "Missing column provided to 'parse_dates': 'InvoiceDate'"
           ∧ l = [Lit "Error during conversion: "; FExc e])
      ∧ ("InvoiceDate" ∈ columns short_table →
           ∃ df dates,
             read_csv (files short_world) sample_csv_path "utf-8" ["InvoiceDate"] = inr df
             ∧ getitem df "InvoiceDate" = inr dates
             ∧ [Lit NL; Lit "Basic statistics:"] ∈ out
             ∧ (series_min dates = inl e ∨ series_max dates = inl e
                ∨ ∃ c, c ∈ ["Invoice"; "StockCode"; "Customer ID"]
                       ∧ (c ∉ columns short_table) ∧ e = KeyError c)).
Proof.
  assert (¬ (required_columns ⊆ columns short_table)) as Hmissing.
  { refine (proj1 (bool_decide_eq_false _) _). vm_compute. reflexivity. }
  split; [vm_compute; reflexivity|]. split; [vm_compute; reflexivity|].
  split; [exact Hmissing|].
  apply (missing_column_fails_before_the_write sample_csv_path sample_parquet_path 100000
           short_world short_csv short_table);
    first [exact Hmissing | vm_compute; reflexivity].
Defined.

Lemma every_failure_is_handled_witness :
  os_stat (files short_world) sample_csv_path
  = inr {| st_size := 121; st_isdir := false |}
  ∧ ((convert_csv_to_parquet sample_csv_path sample_parquet_path 100000 short_world).1
     = Return tt
     ∨ ((convert_csv_to_parquet sample_csv_path sample_parquet_path 100000 short_world).1
        = Raise (SystemExit 1)
        ∧ ∃ pre e l,
            stdout (convert_csv_to_parquet sample_csv_path sample_parquet_path
                      100000 short_world).2 = pre ++ [l]
            ∧ (l = [Lit "Error: CSV file not found at "; FPath sample_csv_path]
               ∨ l = [Lit "Error during conversion: "; FExc e]))).
Proof.
  split; [vm_compute; reflexivity|].
  apply (every_failure_is_handled sample_csv_path sample_parquet_path 100000 short_world
           {| st_size := 121; st_isdir := false |}).
  vm_compute. reflexivity.
Defined.


(** The process that runs the script of the sample repository. *)
Definition sample_proc : process :=
  {| argv := []; environ := ∅;
     script_file := sample_root ++ ["scripts"; "python"; "convert_to_parquet.py"] |}.

(** The repository with a regular file where [data/processed] should be. *)
Definition blocked_world : world :=
  {| files := <[sample_root // "data" // "processed" := File "not a directory"]>
                (sample_files sample_csv);
     stdout := [] |}.

(** The repository with a directory at the destination. *)
Definition dir_world : world :=
  {| files := <[sample_parquet_path := Dir]>
                (<[sample_root // "data" // "processed" := Dir]> (sample_files sample_csv));
     stdout := [] |}.

(** The repository with an empty source. *)
Definition empty_source_world : world := {| files := sample_files ""; stdout := [] |}.

(** The bytes the stand-in encoder gives for the sample table. *)
Definition sample_parquet : string := magic +:+ render sample_table.

Lemma sample_encoded :
  parquet_encode "pyarrow" "snappy" false sample_table = inr sample_parquet.
Proof. vm_compute. reflexivity. Qed.


Lemma blocked_files_ok : fs_ok (files blocked_world).
Proof. refine (bool_decide_unpack _ _). vm_compute. exact I. Qed.

Lemma blocked_read :
  read_csv (files blocked_world) sample_csv_path "utf-8" ["InvoiceDate"] = inr sample_table.
Proof. vm_compute. reflexivity. Qed.

Lemma dir_files_ok : fs_ok (files dir_world).
Proof. refine (bool_decide_unpack _ _). vm_compute. exact I. Qed.

Lemma dir_read :
  read_csv (files dir_world) sample_csv_path "utf-8" ["InvoiceDate"] = inr sample_table.
Proof. vm_compute. reflexivity. Qed.

Lemma main_announces_success_only_after_conversion_witness :
  ([Lit NL; Lit "Conversion completed successfully!"] ∉ stdout sample_world)
  ∧ (((main sample_proc sample_world).1 = Return tt
      ∧ [Lit NL; Lit "Conversion completed successfully!"]
        ∈ stdout (main sample_proc sample_world).2
      ∧ ∃ bytes,
          open_read (files (main sample_proc sample_world).2)
            (parent (parent (parent (script_file sample_proc)))
             // "data" // "processed" // "online_retail.parquet") = inr bytes)
     ∨ (exit_status (main sample_proc sample_world).1 = 1
        ∧ [Lit NL; Lit "Conversion completed successfully!"]
          ∉ stdout (main sample_proc sample_world).2)).
Proof.
  assert ([Lit NL; Lit "Conversion completed successfully!"] ∉ stdout sample_world)
    as Hfresh by (simpl; apply not_elem_of_nil).
  split; [exact Hfresh|].
  exact (main_announces_success_only_after_conversion sample_proc sample_world Hfresh).
Defined.

Lemma directory_blocked_by_a_file_witness :
  fs_ok (files blocked_world)
  ∧ read_csv (files blocked_world) sample_csv_path "utf-8" ["InvoiceDate"] = inr sample_table
  ∧ statistics_computed sample_table
  ∧ sample_root // "data" // "processed" ∈ levels (parent sample_parquet_path)
  ∧ is_file (files blocked_world) (sample_root // "data" // "processed") = true
  ∧ ∃ out p' e,
      (e = NotADirectoryError p' ∨ e = FileExistsError p')
      ∧ mkdir true true (files blocked_world) (parent sample_parquet_path) = inl e
      ∧ convert_csv_to_parquet sample_csv_path sample_parquet_path 100000 blocked_world
        = (Raise (SystemExit 1),
           {| files := files blocked_world;
              stdout := stdout blocked_world ++ out
                        ++ [[Lit "Error during conversion: "; FExc e]] |}).
Proof.
  assert (sample_root // "data" // "processed" ∈ levels (parent sample_parquet_path))
    as Hlevel by (refine (bool_decide_unpack _ _); vm_compute; exact I).
  assert (is_file (files blocked_world) (sample_root // "data" // "processed") = true)
    as Hfile by (vm_compute; reflexivity).
  split; [exact blocked_files_ok|]. split; [exact blocked_read|].
  split; [exact sample_statistics|]. split; [exact Hlevel|]. split; [exact Hfile|].
  exact (directory_blocked_by_a_file sample_csv_path sample_parquet_path 100000
           blocked_world sample_table (sample_root // "data" // "processed")
           blocked_files_ok blocked_read sample_statistics Hlevel Hfile).
Defined.



Lemma destination_is_a_directory_witness :
  fs_ok (files dir_world)
  ∧ read_csv (files dir_world) sample_csv_path "utf-8" ["InvoiceDate"] = inr sample_table
  ∧ statistics_computed sample_table
  ∧ parquet_encode "pyarrow" "snappy" false sample_table = inr sample_parquet
  ∧ is_dir (files dir_world) sample_parquet_path = true
  ∧ ∃ out,
      convert_csv_to_parquet sample_csv_path sample_parquet_path 100000 dir_world
      = (Raise (SystemExit 1),
         {| files := files dir_world;
            stdout := stdout dir_world ++ out
                      ++ [[Lit "Error during conversion: ";
                           FExc (IsADirectoryError sample_parquet_path)]] |}).
Proof.
  assert (is_dir (files dir_world) sample_parquet_path = true) as Hdir
    by (vm_compute; reflexivity).
  split; [exact dir_files_ok|]. split; [exact dir_read|].
  split; [exact sample_statistics|]. split; [exact sample_encoded|]. split; [exact Hdir|].
  exact (destination_is_a_directory sample_csv_path sample_parquet_path 100000 dir_world
           sample_table sample_parquet dir_files_ok dir_read sample_statistics
           sample_encoded Hdir).
Defined.

Lemma dataset_report_witness :
  open_read (files sample_world) sample_csv_path = inr sample_csv
  ∧ csv_tokenize sample_csv "utf-8" = inr sample_table
  ∧ "InvoiceDate" ∈ columns sample_table
  ∧ ∃ pre post,
      stdout sample_run.2
      = stdout sample_world ++ pre ++
        [ [Lit "Rows: "; FInt "," (len sample_table)];
          [Lit "Columns: "; FInt "" (Z.of_nat (length (columns sample_table)))];
          [Lit NL; Lit "Column names:"] ]
        ++ ((λ col, [Lit "  - "; FStr col]) <$> columns sample_table)
        ++ post.
Proof.
  assert (open_read (files sample_world) sample_csv_path = inr sample_csv) as Hopen
    by (vm_compute; reflexivity).
  assert (csv_tokenize sample_csv "utf-8" = inr sample_table) as Htok
    by (vm_compute; reflexivity).
  assert ("InvoiceDate" ∈ columns sample_table) as Hdate
    by (refine (bool_decide_unpack _ _); vm_compute; exact I).
  split; [exact Hopen|]. split; [exact Htok|]. split; [exact Hdate|].
  exact (dataset_report sample_csv_path sample_parquet_path 100000 sample_world
           sample_csv sample_table Hopen Htok Hdate).
Defined.

Lemma load_failure_is_reported_witness :
  os_stat (files empty_source_world) sample_csv_path
  = inr {| st_size := 0; st_isdir := false |}
  ∧ read_csv (files empty_source_world) sample_csv_path "utf-8" ["InvoiceDate"]
    = inl (LibraryError "EmptyDataError" "No columns to parse from file")
  ∧ (∀ p, LibraryError "EmptyDataError" "No columns to parse from file"
          ≠ FileNotFoundError p)
  ∧ convert_csv_to_parquet sample_csv_path sample_parquet_path 100000 empty_source_world
    = (Raise (SystemExit 1),
       {| files := files empty_source_world;
          stdout := stdout empty_source_world ++
            [ [Lit "Reading CSV file: "; FPath sample_csv_path];
              [Lit "File size: ";
               FFloat ".2f"
                 (int_truediv (st_size {| st_size := 0; st_isdir := false |}) (1024 * 1024));
               Lit " MB"; Lit NL];
              [Lit "Error during conversion: ";
               FExc (LibraryError "EmptyDataError" "No columns to parse from file")] ] |}).
Proof.
  assert (os_stat (files empty_source_world) sample_csv_path
          = inr {| st_size := 0; st_isdir := false |}) as Hst
    by (vm_compute; reflexivity).
  assert (read_csv (files empty_source_world) sample_csv_path "utf-8" ["InvoiceDate"]
          = inl (LibraryError "EmptyDataError" "No columns to parse from file")) as Hload
    by (vm_compute; reflexivity).
  assert (∀ p, LibraryError "EmptyDataError" "No columns to parse from file"
               ≠ FileNotFoundError p) as Hother by discriminate.
  split; [exact Hst|]. split; [exact Hload|]. split; [exact Hother|].
  exact (load_failure_is_reported sample_csv_path sample_parquet_path 100000
           empty_source_world {| st_size := 0; st_isdir := false |}
           (LibraryError "EmptyDataError" "No columns to parse from file")
           Hst Hload Hother).
Defined.


End Examples.

(** The same files with a write that fails half way: the destination is
    opened, the magic number is written, and the disk is full. *)
Section FailingWrite.
#[local] Existing Instance reference.platform.

#[local] Instance full_disk : Pandas := {|
  scalar := string;
  csv_tokenize := reference.tokenize_as;
  to_datetime := id;
  series_min s := inr (reference.least String.ltb s);
  series_max s := inr (reference.least (λ a b, String.ltb b a) s);
  parquet_encode _ _ _ _ :=
    inl (LibraryError "OSError" "[Errno 28] No space left on device");
  parquet_written _ _ _ _ := Some "PAR1";
  parquet_decode := reference.read_table
|}.



End FailingWrite.
